(** * asyncrequest: a shallow embedding of [async_request.py]

    The module defines one class, [Request], that wraps aiohttp: a
    constructor, a [_time_out] property with its setter, a
    [_client_session] property that builds a fresh session on every read,
    the blocking entry point [request], the coroutine [_request] holding the
    dispatch table, and five verb senders.

    The embedding follows the Python text statement by statement.  The
    interpreter's state (the [Request] object, the sessions that were
    constructed, the HTTP calls that reached the transport) is threaded
    through a small state-and-exception monad.  aiohttp itself is not part
    of the repository: what the server answers and what [response.json()]
    yields are parameters, gathered in the record [Transport]. *)

From Stdlib Require Import ZArith NArith QArith Ascii String List Lia.
From stdpp Require Import gmap strings list fin_maps.

Set Warnings "-register-all".
Local Open Scope string_scope.
Local Open Scope Z_scope.

(** ** Python values *)

(** The values that cross the interface: keyword arguments, JSON documents
    decoded by aiohttp, status codes, and the list built by
    [asyncio.gather].  A finite Python float is represented by the rational
    it denotes; no arithmetic is ever done on it here. *)
Inductive PyVal : Type :=
| PyNone
| PyBool (b : bool)
| PyInt (z : Z)
| PyFloat (q : Q)
| PyStr (s : string)
| PyList (l : list PyVal)
| PyDict (d : list (string * PyVal)).

(** A raised exception: the name of its class and its [args]. *)
Record Exn : Type := mkExn { exn_class : string; exn_args : list PyVal }.

Definition TypeError (msg : string) : Exn := mkExn "TypeError" [PyStr msg].

Inductive Result (A : Type) : Type :=
| Return (a : A)
| Raise (e : Exn).
Arguments Return {A} a.
Arguments Raise {A} e.

(** ** [str.lower] and case-insensitive comparison *)

(** Strings are byte strings.  [str.lower] maps [A]..[Z] to [a]..[z]; bytes
    outside ASCII are left alone.  (On full Unicode, Python lower-cases a
    few non-ASCII code points to text containing an ASCII letter, but never
    to one of the five keys of the dispatch table, so the strings that
    select an entry are the same.) *)
Definition is_upper (a : ascii) : bool :=
  ((65 <=? N_of_ascii a) && (N_of_ascii a <=? 90))%N.

Definition ascii_lower (a : ascii) : ascii :=
  if is_upper a then ascii_of_N (N_of_ascii a + 32) else a.

Fixpoint lower (s : string) : string :=
  match s with
  | EmptyString => EmptyString
  | String a s' => String (ascii_lower a) (lower s')
  end.

(** The specification's notion of "the same verb in any character case",
    stated without [lower]: two characters agree when they are equal or one
    is the upper-case form of the other. *)
Definition same_letter (a b : ascii) : bool :=
  Ascii.eqb a b
  || (is_upper a && Ascii.eqb b (ascii_of_N (N_of_ascii a + 32)))
  || (is_upper b && Ascii.eqb a (ascii_of_N (N_of_ascii b + 32))).

Fixpoint caseless_eq (s t : string) : bool :=
  match s, t with
  | EmptyString, EmptyString => true
  | String a s', String b t' => same_letter a b && caseless_eq s' t'
  | _, _ => false
  end.

(** ** HTTP verbs *)

Inductive Verb : Type := GET | POST | PUT | PATCH | DELETE.

#[global] Instance Verb_eq_dec : EqDecision Verb.
Proof. solve_decision. Defined.

Definition all_verbs : list Verb := [GET; POST; PUT; PATCH; DELETE].

(** The verb as the specification spells it. *)
Definition verb_name (v : Verb) : string :=
  match v with
  | GET => "GET" | POST => "POST" | PUT => "PUT"
  | PATCH => "PATCH" | DELETE => "DELETE"
  end.

(** The key under which the dispatch table of [_request] files the verb. *)
Definition verb_key (v : Verb) : string :=
  match v with
  | GET => "get" | POST => "post" | PUT => "put"
  | PATCH => "patch" | DELETE => "delete"
  end.

(** [method] names verb [v], in any character case. *)
Definition names_verb (method : string) (v : Verb) : Prop :=
  caseless_eq method (verb_name v) = true.

(** [method] is none of the five verbs, in any character case. *)
Definition unsupported (method : string) : Prop :=
  forall v : Verb, caseless_eq method (verb_name v) = false.

(** ** aiohttp objects *)

(** [aiohttp.ClientTimeout(total=...)]: the only field this module ever
    sets.  The object is immutable; the setter below builds a new one. *)
Record ClientTimeout : Type := mkClientTimeout { total : PyVal }.

(** [aiohttp.ClientSession(connector=TCPConnector(limit=...), timeout=...)].
    A session is an object with identity: it lives in the state below and is
    referred to by its position there. *)
Record ClientSession : Type := mkClientSession {
  connector_limit : Z;
  timeout_of_session : ClientTimeout;
  closed : bool
}.

Abbreviation SessionRef := nat.

Definition Headers : Type := list (string * string).

(** One call of [session.get], [session.post], ... as the transport sees
    it.  A keyword the sender does not pass is [None]; a keyword passed
    with the Python value [None] is [Some PyNone]. *)
Record HttpCall : Type := mkHttpCall {
  call_verb : Verb;
  call_session : SessionRef;
  call_url : string;
  call_params : option PyVal;
  call_data : option PyVal;
  call_json : option PyVal;
  call_headers : Headers;
  call_timeout : ClientTimeout;
  call_kwargs : gmap string PyVal
}.

(** What [async with session.<verb>(...) as response] binds. *)
Record Response : Type := mkResponse {
  status : Z;
  response_headers : Headers;
  body : string
}.

(** The part of the world this repository does not contain: the answer of
    the network to a call (given the calls made before it), which is a
    response or an exception raised by aiohttp, and the outcome of
    [response.json()]. *)
Record Transport : Type := mkTransport {
  send : list HttpCall -> HttpCall -> Result Response;
  read_json : Response -> Result PyVal
}.

(** ** The [Request] object and the interpreter state *)

Record Request : Type := mkRequest {
  header : Headers;
  request_timeout : ClientTimeout;
  session_timeout : ClientTimeout
}.

Record World : Type := mkWorld {
  self : Request;
  sessions : list ClientSession;
  calls : list HttpCall
}.

(** Computations that read and update the state and may raise.  The state
    reached when an exception is raised is kept: whatever was done before
    the raise stays done. *)
Definition M (A : Type) : Type := World -> Result A * World.

#[global] Instance M_ret : MRet M := fun A (a : A) (w : World) => (Return a, w).

#[global] Instance M_bind : MBind M := fun A B (k : A -> M B) (m : M A) (w : World) =>
  match m w with
  | (Return a, w') => k a w'
  | (Raise e, w') => (Raise e, w')
  end.

Definition raise {A : Type} (e : Exn) : M A := fun w => (Raise e, w).

(** A coroutine object: the body of an [async def] with its arguments
    bound, not yet started.  Creating it runs nothing. *)
Definition Coroutine : Type := M PyVal.

(** ** Calls with [**kwargs] *)

(** [f(k1=..., ..., kn=..., **kwargs)]: Python refuses the call with a
    [TypeError] when [kwargs] repeats one of the keywords written out at the
    call site.  [clash] finds the first such keyword. *)
Definition clash (given : list string) (kwargs : gmap string PyVal) : option string :=
  List.find (fun k => bool_decide (is_Some (kwargs !! k))) given.

(** Calling an [async def]: the arguments are bound (which may raise) and a
    coroutine object is returned; its body does not run. *)
Definition call_async (fname : string) (given : list string)
    (kwargs : gmap string PyVal) (co : Coroutine) : M Coroutine :=
  match clash given kwargs with
  | Some k =>
      raise (TypeError (fname ++ "() got multiple values for keyword argument '" ++ k ++ "'"))
  | None => mret co
  end.

(** [await v] where [v] is a plain value, not an awaitable: a [TypeError]
    (the message is CPython's up to 3.13; only the class matters below). *)
Definition type_name (v : PyVal) : string :=
  match v with
  | PyNone => "NoneType" | PyBool _ => "bool" | PyInt _ => "int"
  | PyFloat _ => "float" | PyStr _ => "str" | PyList _ => "list"
  | PyDict _ => "dict"
  end.

Definition await_value (v : PyVal) : M PyVal :=
  raise (TypeError ("object " ++ type_name v ++ " can't be used in 'await' expression")).

(** [asyncio.gather(arg)] with its single argument, awaited: a coroutine is
    run to completion and its result is returned in a one-element list, an
    exception it raises propagates; anything that is not awaitable (here
    [None], what [dict.get] returns for a missing key) is refused. *)
Definition gather (arg : option Coroutine) : M PyVal :=
  match arg with
  | Some co => r ← co; mret (PyList [r])
  | None => raise (TypeError "An asyncio.Future, a coroutine or an awaitable is required")
  end.

(** [asyncio.run(co)]: runs the coroutine to completion on a fresh loop and
    hands back its result or its exception.  ([request] is a blocking entry
    point, called where no loop is running.) *)
Definition asyncio_run (co : Coroutine) : M PyVal := co.

Section Client.

Variable net : Transport.

(** *** aiohttp's session and response methods *)

Definition ClientSession_new (limit : Z) (timeout : ClientTimeout) : M SessionRef :=
  fun w =>
    (Return (length (sessions w)),
     mkWorld (self w) (sessions w ++ [mkClientSession limit timeout false]) (calls w)).

(** Entering [async with session.<verb>(...)]: the call reaches the
    transport, which answers with a response or raises.  The log keeps every
    such call, answered or not, as a recording transport would. *)
Definition ClientSession_request (c : HttpCall) : M Response :=
  fun w => (send net (calls w) c, mkWorld (self w) (sessions w) (calls w ++ [c])).

Definition ClientSession_get (session : SessionRef) (url : string) (params : PyVal)
    (headers : Headers) (timeout : ClientTimeout) (kwargs : gmap string PyVal) : M Response :=
  ClientSession_request
    (mkHttpCall GET session url (Some params) None None headers timeout kwargs).

Definition ClientSession_post (session : SessionRef) (url : string) (data json : PyVal)
    (headers : Headers) (timeout : ClientTimeout) (kwargs : gmap string PyVal) : M Response :=
  ClientSession_request
    (mkHttpCall POST session url None (Some data) (Some json) headers timeout kwargs).

Definition ClientSession_put (session : SessionRef) (url : string) (data : PyVal)
    (headers : Headers) (timeout : ClientTimeout) (kwargs : gmap string PyVal) : M Response :=
  ClientSession_request
    (mkHttpCall PUT session url None (Some data) None headers timeout kwargs).

Definition ClientSession_patch (session : SessionRef) (url : string) (data : PyVal)
    (headers : Headers) (timeout : ClientTimeout) (kwargs : gmap string PyVal) : M Response :=
  ClientSession_request
    (mkHttpCall PATCH session url None (Some data) None headers timeout kwargs).

Definition ClientSession_delete (session : SessionRef) (url : string)
    (headers : Headers) (timeout : ClientTimeout) (kwargs : gmap string PyVal) : M Response :=
  ClientSession_request
    (mkHttpCall DELETE session url None None None headers timeout kwargs).

Definition close_session (s : ClientSession) : ClientSession :=
  mkClientSession (connector_limit s) (timeout_of_session s) true.

Definition ClientSession_close (session : SessionRef) : M unit :=
  fun w => (Return tt, mkWorld (self w) (alter close_session session (sessions w)) (calls w)).

Definition Response_json (response : Response) : M PyVal :=
  fun w => (read_json net response, w).

(** *** [class Request] *)

(** [__init__]: the two default headers ([aiohttp.hdrs.CONNECTION] is
    ["Connection"], [aiohttp.hdrs.KEEP_ALIVE] is ["Keep-Alive"]) and a
    timeout of [2 * 60] seconds, stored twice. *)
Definition __init__ : Request :=
  let request_timeout := mkClientTimeout (PyInt (2 * 60)) in
  mkRequest [("Connection", "Keep-Alive"); ("Authorization", "bear your token")]
            request_timeout request_timeout.

Definition get_header : M Headers := fun w => (Return (header (self w)), w).

(** The [_time_out] property. *)
Definition _time_out : M ClientTimeout :=
  fun w => (Return (request_timeout (self w)), w).

(** The [_time_out] setter. *)
Definition _time_out_setter (value : PyVal) : M unit :=
  fun w =>
    (Return tt,
     mkWorld (mkRequest (header (self w)) (mkClientTimeout value) (session_timeout (self w)))
             (sessions w) (calls w)).

(** The [_client_session] property: every read builds a new connector and
    a new session. *)
Definition _client_session : M SessionRef :=
  timeout ← _time_out;
  let connector_limit := 30 in
  ClientSession_new connector_limit timeout.

(** *** The five verb senders

    In each, an exception raised while entering the [async with] block or
    inside it leaves the function at once: the [await session.close()] that
    follows the block is not reached. *)

Definition _get (session : SessionRef) (url : string) (timeout : ClientTimeout)
    (params : PyVal) (headers : Headers) (kwargs : gmap string PyVal) : Coroutine :=
  response ← ClientSession_get session url params headers timeout kwargs;
  response ← Response_json response;
  _ ← ClientSession_close session;
  mret response.

Definition _post (session : SessionRef) (url : string) (timeout : ClientTimeout)
    (data json : PyVal) (headers : Headers) (kwargs : gmap string PyVal) : Coroutine :=
  response ← ClientSession_post session url data json headers timeout kwargs;
  response ← Response_json response;
  _ ← ClientSession_close session;
  mret response.

Definition _put (session : SessionRef) (url : string) (timeout : ClientTimeout)
    (data : PyVal) (headers : Headers) (kwargs : gmap string PyVal) : Coroutine :=
  response ← ClientSession_put session url data headers timeout kwargs;
  response ← Response_json response;
  _ ← ClientSession_close session;
  mret response.

Definition _patch (session : SessionRef) (url : string) (timeout : ClientTimeout)
    (data : PyVal) (headers : Headers) (kwargs : gmap string PyVal) : Coroutine :=
  response ← ClientSession_patch session url data headers timeout kwargs;
  response ← Response_json response;
  _ ← ClientSession_close session;
  mret response.

(** [_delete] awaits [response.status], which is an [int]. *)
Definition _delete (session : SessionRef) (url : string) (timeout : ClientTimeout)
    (headers : Headers) (kwargs : gmap string PyVal) : Coroutine :=
  response ← ClientSession_delete session url headers timeout kwargs;
  response ← await_value (PyInt (status response));
  _ ← ClientSession_close session;
  mret response.

(** *** [_request]: the dispatch table and the selection *)

(** The dict literal of [_request].  Its five values are calls of the
    senders, evaluated in order while the dict is built: each reads
    [self._client_session] (a new session), [self.header] and
    [self._time_out], binds the arguments and yields a coroutine object.
    No sender body runs here. *)
Definition dispatch_table (url : string) (params data json : PyVal)
    (kwargs : gmap string PyVal) : M (gmap string Coroutine) :=
  session ← _client_session; headers ← get_header; timeout ← _time_out;
  co_get ← call_async "_get" ["session"; "url"; "params"; "headers"; "timeout"] kwargs
             (_get session url timeout params headers kwargs);
  session ← _client_session; headers ← get_header; timeout ← _time_out;
  co_post ← call_async "_post" ["session"; "url"; "data"; "json"; "headers"; "timeout"] kwargs
              (_post session url timeout data json headers kwargs);
  session ← _client_session; headers ← get_header; timeout ← _time_out;
  co_put ← call_async "_put" ["session"; "url"; "data"; "headers"; "timeout"] kwargs
             (_put session url timeout data headers kwargs);
  session ← _client_session; headers ← get_header; timeout ← _time_out;
  co_patch ← call_async "_patch" ["session"; "url"; "data"; "headers"; "timeout"] kwargs
               (_patch session url timeout data headers kwargs);
  session ← _client_session; headers ← get_header; timeout ← _time_out;
  co_delete ← call_async "_delete" ["session"; "url"; "headers"; "timeout"] kwargs
                (_delete session url timeout headers kwargs);
  mret (<["get" := co_get]> (<["post" := co_post]> (<["put" := co_put]>
         (<["patch" := co_patch]> (<["delete" := co_delete]> ∅))))).

(** [await asyncio.gather({...}.get(method.lower()))]. *)
Definition _request (method url : string) (params data json : PyVal)
    (kwargs : gmap string PyVal) : Coroutine :=
  table ← dispatch_table url params data json kwargs;
  gather (table !! lower method).

(** The keyword arguments [_request] receives in its own [**kwargs]:
    [params], [data] and [json] are taken out by its signature. *)
Definition keyword (k : string) (kwargs : gmap string PyVal) : PyVal :=
  default PyNone (kwargs !! k).

Definition passthrough (kwargs : gmap string PyVal) : gmap string PyVal :=
  delete "params" (delete "data" (delete "json" kwargs)).

(** [request]: [asyncio.run(self._request(method, url, **kwargs))]. *)
Definition request (method url : string) (kwargs : gmap string PyVal) : M PyVal :=
  co ← call_async "_request" ["self"; "method"; "url"] kwargs
         (_request method url (keyword "params" kwargs) (keyword "data" kwargs)
                   (keyword "json" kwargs) (passthrough kwargs));
  asyncio_run co.

End Client.

(** ** Vocabulary of the specification *)

(** The options a caller may pass to [request] without the call being
    refused while arguments are bound: none of the names that [request],
    [_request] or a sender receives explicitly.  [params], [data] and [json]
    are allowed; they are parameters of [_request]. *)
Definition reserved : list string :=
  ["self"; "method"; "url"; "session"; "headers"; "timeout"].

Definition accepted (kwargs : gmap string PyVal) : Prop :=
  forall k : string, In k reserved -> kwargs !! k = None.

(** The calls a computation added to the log, given the states before and
    after it. *)
Definition issued (w w' : World) (cs : list HttpCall) : Prop :=
  calls w' = (calls w ++ cs)%list.

(** The sessions a computation constructed. *)
Definition constructed (w w' : World) (n : nat) : Prop :=
  length (sessions w') = (length (sessions w) + n)%nat.

Definition is_open (w : World) (i : SessionRef) : Prop :=
  exists s, sessions w !! i = Some s /\ closed s = false.

Definition is_closed (w : World) (i : SessionRef) : Prop :=
  exists s, sessions w !! i = Some s /\ closed s = true.

(** Position of a verb's entry in the dict literal of [_request], which is
    also the offset of the session constructed for it. *)
Definition verb_index (v : Verb) : nat :=
  match v with GET => 0 | POST => 1 | PUT => 2 | PATCH => 3 | DELETE => 4 end%nat.

(** The error classes the specification names. *)
Definition is_UnsupportedMethodError (e : Exn) : Prop :=
  exn_class e = "UnsupportedMethodError".

Definition is_DecodeError (e : Exn) (r : Response) : Prop :=
  exn_class e = "DecodeError" /\
  In (PyInt (status r)) (exn_args e) /\ In (PyStr (body r)) (exn_args e).

(** ** Test doubles

    Concrete transports and states on which the embedding is evaluated. *)

Definition fresh : World := mkWorld __init__ [] [].

Definition example_url : string := "https://httpbin.org/anything".

Definition dquote : string := String (ascii_of_nat 34) EmptyString.

(** The document [{"a": 1}] and the text a server sends for it. *)
Definition json_a1 : PyVal := PyDict [("a", PyInt 1)].
Definition body_a1 : string := "{" ++ dquote ++ "a" ++ dquote ++ ": 1}".

Definition json_type : Headers := [("Content-Type", "application/json")].
Definition html_type : Headers := [("Content-Type", "text/html")].

(** A stand-in for [response.json()] that knows one document: it refuses a
    response whose content type is not JSON, as aiohttp does, decodes
    [body_a1], and rejects every other text. *)
Definition toy_json (r : Response) : Result PyVal :=
  if bool_decide (response_headers r = json_type) then
    if String.eqb (body r) body_a1 then Return json_a1
    else Raise (mkExn "JSONDecodeError" [PyStr "Expecting value"; PyStr (body r); PyInt 0])
  else
    Raise (mkExn "ContentTypeError"
             [PyInt (status r); PyStr "Attempt to decode JSON with unexpected mimetype"]).

(** A server that answers every call with the same response. *)
Definition server (r : Response) : Transport :=
  mkTransport (fun _ _ => Return r) toy_json.

Definition ok_a1 : Response := mkResponse 200 json_type body_a1.
Definition no_content : Response := mkResponse 204 [] "".
Definition html_page : Response := mkResponse 200 html_type "<html>oops</html>".

(** ** Proof-side descriptions of a run

    What the selected sender is, which call it makes, and what happens to
    the response, written as plain functions so that the statements below
    can name them. *)

(** The state after [n] reads of [_client_session]. *)
Definition with_sessions (w : World) (n : nat) : World :=
  mkWorld (self w)
          (sessions w ++ replicate n (mkClientSession 30 (request_timeout (self w)) false))
          (calls w).

(** The call sender [v] hands to the transport. *)
Definition call_of (v : Verb) (session : SessionRef) (url : string)
    (timeout : ClientTimeout) (params data json : PyVal) (headers : Headers)
    (kwargs : gmap string PyVal) : HttpCall :=
  match v with
  | GET => mkHttpCall GET session url (Some params) None None headers timeout kwargs
  | POST => mkHttpCall POST session url None (Some data) (Some json) headers timeout kwargs
  | PUT => mkHttpCall PUT session url None (Some data) None headers timeout kwargs
  | PATCH => mkHttpCall PATCH session url None (Some data) None headers timeout kwargs
  | DELETE => mkHttpCall DELETE session url None None None headers timeout kwargs
  end.

(** The coroutine the dict literal files under [verb_key v]. *)
Definition sender (net : Transport) (v : Verb) (session : SessionRef) (url : string)
    (timeout : ClientTimeout) (params data json : PyVal) (headers : Headers)
    (kwargs : gmap string PyVal) : Coroutine :=
  match v with
  | GET => _get net session url timeout params headers kwargs
  | POST => _post net session url timeout data json headers kwargs
  | PUT => _put net session url timeout data headers kwargs
  | PATCH => _patch net session url timeout data headers kwargs
  | DELETE => _delete net session url timeout headers kwargs
  end.

(** What a sender makes of the response it received: the four JSON senders
    await [response.json()], [_delete] awaits the integer status. *)
Definition read_response (net : Transport) (v : Verb) (r : Response) : Result PyVal :=
  match v with
  | DELETE => Raise (TypeError "object int can't be used in 'await' expression")
  | _ => read_json net r
  end.

(** The dict [_request] builds when no call is refused, for sessions
    numbered from [base]. *)
Definition table_of (net : Transport) (base : nat) (url : string)
    (timeout : ClientTimeout) (params data json : PyVal) (headers : Headers)
    (kwargs : gmap string PyVal) : gmap string Coroutine :=
  let co v := sender net v (base + verb_index v)%nat url timeout params data json headers kwargs in
  <["get" := co GET]> (<["post" := co POST]> (<["put" := co PUT]>
    (<["patch" := co PATCH]> (<["delete" := co DELETE]> ∅)))).

(** The keywords written out at the five sender calls, taken together. *)
Definition sender_keywords : list string :=
  ["session"; "url"; "params"; "data"; "json"; "headers"; "timeout"].

(** A host that cannot be reached: aiohttp raises on every call. *)
Definition connection_refused : Exn :=
  mkExn "ClientConnectorError" [PyStr "Cannot connect to host"].

Definition unreachable : Transport :=
  mkTransport (fun _ _ => Raise connection_refused) toy_json.

(** Options of a PUT that carries both a form body and a JSON body. *)
Definition put_options : gmap string PyVal :=
  <["data" := PyStr "x=1"]> (<["json" := PyDict [("x", PyInt 1)]]>
    (<["allow_redirects" := PyBool true]> ∅)).

(** The fan-out the specification attributes to the code as built: one
    call per verb, all against [url]. *)
Definition fans_out (w w' : World) (url : string) : Prop :=
  exists cs, issued w w' cs /\ map call_verb cs ≡ₚ all_verbs /\
             Forall (fun c => call_url c = url) cs.

(** A check of [accepted] that computes. *)
Definition acceptedb (kwargs : gmap string PyVal) : bool :=
  forallb (fun k => negb (bool_decide (is_Some (kwargs !! k)))) reserved.

(** ** A caller's use of one [Request] object

    A program holding a [Request] calls the timeout setter and [request] in
    some order; a [request] that raises is caught by the caller, who goes
    on.  [run_calls] is the state such a program leaves behind. *)
Inductive ApiCall : Type :=
| SetTimeout (value : PyVal)
| DoRequest (method url : string) (kwargs : gmap string PyVal).

Definition run_call (net : Transport) (a : ApiCall) (w : World) : World :=
  match a with
  | SetTimeout value => snd (_time_out_setter value w)
  | DoRequest method url kwargs => snd (request net method url kwargs w)
  end.

Definition run_calls (net : Transport) (l : list ApiCall) (w : World) : World :=
  fold_left (fun w a => run_call net a w) l w.

(** The timeout the object stores after the calls [l], having stored [t]
    before: that of the last setter call, if any. *)
Definition last_timeout (l : list ApiCall) (t : ClientTimeout) : ClientTimeout :=
  fold_left (fun t a => match a with
                        | SetTimeout value => mkClientTimeout value
                        | DoRequest _ _ _ => t
                        end) l t.

(** The number of sessions that were constructed and not closed. *)
Definition open_sessions (w : World) : nat :=
  length (List.filter (fun s => negb (closed s)) (sessions w)).

(** Every logged call went out on a session that exists, and no two calls
    went out on the same session. *)
Definition own_session (w : World) : Prop :=
  NoDup (map call_session (calls w)) /\
  Forall (fun c => (call_session c < length (sessions w))%nat) (calls w).

(** The options the senders pass explicitly and Python therefore refuses
    in [**kwargs]. *)
Definition refused_options : list string := ["session"; "headers"; "timeout"].

(** A caller that sets the timeout, makes two requests, one of them for an
    unknown verb, sets the timeout again and deletes. *)
Definition session_of_calls : list ApiCall :=
  [SetTimeout (PyInt 5); DoRequest "GET" example_url ∅; DoRequest "HEAD" example_url ∅;
   SetTimeout (PyFloat (1 # 2)); DoRequest "delete" example_url ∅].

Local Open Scope nat_scope.

(** ** Case-insensitive verbs and [str.lower] *)

Lemma N_of_ascii_inj (a b : ascii) : N_of_ascii a = N_of_ascii b -> a = b.
Proof.
  intros H. rewrite <- (ascii_N_embedding a), <- (ascii_N_embedding b), H. reflexivity.
Qed.

Lemma is_upper_bounds (a : ascii) :
  is_upper a = true <-> (65 <= N_of_ascii a <= 90)%N.
Proof.
  unfold is_upper. rewrite andb_true_iff, !N.leb_le. tauto.
Qed.

Lemma ascii_lower_code (a : ascii) :
  N_of_ascii (ascii_lower a) =
  if is_upper a then (N_of_ascii a + 32)%N else N_of_ascii a.
Proof.
  unfold ascii_lower. destruct (is_upper a) eqn:E; [|reflexivity].
  apply is_upper_bounds in E. apply N_ascii_embedding. lia.
Qed.

Lemma shifted_eqb (a b : ascii) :
  is_upper a = true ->
  Ascii.eqb b (ascii_of_N (N_of_ascii a + 32)) = true <-> N_of_ascii b = (N_of_ascii a + 32)%N.
Proof.
  intros Ha. apply is_upper_bounds in Ha. rewrite Ascii.eqb_eq. split.
  - intros ->. apply N_ascii_embedding. lia.
  - intros H. apply N_of_ascii_inj. rewrite H. symmetry. apply N_ascii_embedding. lia.
Qed.

Lemma same_letter_lower (a b : ascii) :
  same_letter a b = true <-> ascii_lower a = ascii_lower b.
Proof.
  assert (Hinj : ascii_lower a = ascii_lower b <->
                 N_of_ascii (ascii_lower a) = N_of_ascii (ascii_lower b)).
  { split; [congruence | apply N_of_ascii_inj]. }
  rewrite Hinj, !ascii_lower_code. clear Hinj.
  assert (Heq : Ascii.eqb a b = true <-> N_of_ascii a = N_of_ascii b).
  { rewrite Ascii.eqb_eq. split; [congruence | apply N_of_ascii_inj]. }
  unfold same_letter. rewrite !orb_true_iff, !andb_true_iff, Heq.
  destruct (is_upper a) eqn:Ea, (is_upper b) eqn:Eb.
  all: try rewrite (shifted_eqb a b Ea); try rewrite (shifted_eqb b a Eb).
  all: try (apply is_upper_bounds in Ea); try (apply is_upper_bounds in Eb).
  all: try (apply not_true_iff_false in Ea; rewrite is_upper_bounds in Ea).
  all: try (apply not_true_iff_false in Eb; rewrite is_upper_bounds in Eb).
  all: intuition (try discriminate; try lia).
Qed.

Lemma caseless_eq_lower (s t : string) :
  caseless_eq s t = true <-> lower s = lower t.
Proof.
  revert t. induction s as [|a s IH]; intros [|b t]; simpl; try (split; [discriminate | discriminate]); [tauto|].
  rewrite andb_true_iff, same_letter_lower, IH. split.
  - intros [-> ->]. reflexivity.
  - intros H. injection H as H1 H2. tauto.
Qed.

Lemma names_verb_key (method : string) (v : Verb) :
  names_verb method v -> lower method = verb_key v.
Proof.
  unfold names_verb. rewrite caseless_eq_lower. intros ->. destruct v; reflexivity.
Qed.

Lemma unsupported_key (method : string) :
  unsupported method -> forall v, lower method <> verb_key v.
Proof.
  intros H v E. specialize (H v).
  assert (caseless_eq method (verb_name v) = true) as Ht.
  { apply caseless_eq_lower. rewrite E. destruct v; reflexivity. }
  congruence.
Qed.

(** ** Binding keyword arguments *)

Lemma clash_none (given : list string) (kwargs : gmap string PyVal) :
  (forall k, In k given -> kwargs !! k = None) -> clash given kwargs = None.
Proof.
  unfold clash. induction given as [|k given IH]; intros H; simpl; [reflexivity|].
  rewrite (H k) by (left; reflexivity). simpl. apply IH.
  intros k' Hk'. apply H. right. exact Hk'.
Qed.

Lemma passthrough_lookup (kwargs : gmap string PyVal) (k : string) :
  accepted kwargs -> In k sender_keywords -> passthrough kwargs !! k = None.
Proof.
  intros Hacc Hk. unfold passthrough. rewrite !lookup_delete.
  repeat case_decide; try reflexivity.
  apply Hacc. unfold reserved. simpl in Hk |- *.
  destruct Hk as [<-|[<-|[<-|[<-|[<-|[<-|[<-|[]]]]]]]]; tauto.
Qed.

Lemma accepted_request_call (kwargs : gmap string PyVal) :
  accepted kwargs -> clash ["self"; "method"; "url"] kwargs = None.
Proof.
  intros Hacc. apply clash_none. intros k Hk. apply Hacc.
  unfold reserved. simpl in Hk |- *. tauto.
Qed.

(** ** Running the senders and the dispatch *)

Section Runs.

Variable net : Transport.

Lemma sender_run (v : Verb) (session : SessionRef) (url : string)
    (timeout : ClientTimeout) (params data json : PyVal) (headers : Headers)
    (kwargs : gmap string PyVal) (w : World) :
  sender net v session url timeout params data json headers kwargs w =
  let c := call_of v session url timeout params data json headers kwargs in
  match send net (calls w) c with
  | Raise e => (Raise e, mkWorld (self w) (sessions w) (calls w ++ [c]))
  | Return r =>
      match read_response net v r with
      | Raise e => (Raise e, mkWorld (self w) (sessions w) (calls w ++ [c]))
      | Return x =>
          (Return x,
           mkWorld (self w) (alter close_session session (sessions w)) (calls w ++ [c]))
      end
  end.
Proof.
  destruct v; simpl;
    unfold _get, _post, _put, _patch, _delete, mbind, M_bind, mret, M_ret,
      ClientSession_get, ClientSession_post, ClientSession_put, ClientSession_patch,
      ClientSession_delete, ClientSession_request, Response_json, ClientSession_close,
      await_value, raise; simpl;
    destruct (send net _ _) as [r|e]; simpl; try reflexivity;
    destruct (read_json net r); reflexivity.
Qed.

Lemma dispatch_table_run (url : string) (params data json : PyVal)
    (kwargs : gmap string PyVal) (w : World) :
  (forall k, In k sender_keywords -> kwargs !! k = None) ->
  dispatch_table net url params data json kwargs w =
  (Return (table_of net (length (sessions w)) url (request_timeout (self w))
             params data json (header (self w)) kwargs),
   with_sessions w 5).
Proof.
  intros H. unfold dispatch_table, call_async.
  rewrite !clash_none by (intros k Hk; apply H; unfold sender_keywords; simpl in Hk |- *; tauto).
  unfold mbind, M_bind, mret, M_ret, _client_session, _time_out, get_header,
    ClientSession_new, with_sessions, table_of. simpl.
  rewrite !length_app. simpl. rewrite <- !app_assoc. simpl.
  rewrite <- !Nat.add_assoc. simpl. rewrite Nat.add_0_r. reflexivity.
Qed.

Lemma table_of_lookup (base : nat) (url : string) (timeout : ClientTimeout)
    (params data json : PyVal) (headers : Headers) (kwargs : gmap string PyVal)
    (v : Verb) :
  table_of net base url timeout params data json headers kwargs !! verb_key v =
  Some (sender net v (base + verb_index v) url timeout params data json headers kwargs).
Proof.
  unfold table_of. destruct v; simpl verb_key;
    repeat (rewrite lookup_insert_ne by discriminate); apply lookup_insert_eq.
Qed.

Lemma table_of_lookup_None (base : nat) (url : string) (timeout : ClientTimeout)
    (params data json : PyVal) (headers : Headers) (kwargs : gmap string PyVal)
    (k : string) :
  (forall v, k <> verb_key v) ->
  table_of net base url timeout params data json headers kwargs !! k = None.
Proof.
  intros H. unfold table_of.
  pose proof (H GET). pose proof (H POST). pose proof (H PUT).
  pose proof (H PATCH). pose proof (H DELETE). simpl in *.
  repeat (rewrite lookup_insert_ne by congruence). apply lookup_empty.
Qed.

(** Whatever the keyword arguments, building the dict issues no call and
    leaves the [Request] object alone; it either is refused with a
    [TypeError] or yields exactly [table_of]. *)
Lemma dispatch_table_any (url : string) (params data json : PyVal)
    (kwargs : gmap string PyVal) (w : World) :
  match dispatch_table net url params data json kwargs w with
  | (Return table, w') =>
      table = table_of net (length (sessions w)) url (request_timeout (self w))
                params data json (header (self w)) kwargs /\
      calls w' = calls w /\ self w' = self w
  | (Raise e, w') =>
      exn_class e = "TypeError" /\ calls w' = calls w /\ self w' = self w
  end.
Proof.
  unfold dispatch_table, call_async.
  repeat match goal with
         | |- context [clash ?g kwargs] => destruct (clash g kwargs)
         end.
  all: unfold mbind, M_bind, mret, M_ret, _client_session, _time_out, get_header,
         ClientSession_new, raise, table_of; simpl; auto.
  rewrite !length_app. simpl. rewrite <- !Nat.add_assoc. simpl. rewrite Nat.add_0_r. auto.
Qed.

(** The run of [request] for a verb in any case and accepted options: five
    sessions are built, then the selected sender alone runs. *)
Lemma request_run (method url : string) (kwargs : gmap string PyVal) (v : Verb) (w : World) :
  names_verb method v -> accepted kwargs ->
  request net method url kwargs w =
  match sender net v (length (sessions w) + verb_index v) url (request_timeout (self w))
          (keyword "params" kwargs) (keyword "data" kwargs) (keyword "json" kwargs)
          (header (self w)) (passthrough kwargs) (with_sessions w 5) with
  | (Return x, w') => (Return (PyList [x]), w')
  | (Raise e, w') => (Raise e, w')
  end.
Proof.
  intros Hv Hacc. unfold request, call_async.
  rewrite (accepted_request_call kwargs Hacc).
  unfold asyncio_run, _request, mbind, M_bind, mret, M_ret. simpl.
  rewrite dispatch_table_run by (intros k Hk; apply passthrough_lookup; assumption).
  rewrite (names_verb_key method v Hv), table_of_lookup.
  unfold gather, mbind, M_bind, mret, M_ret.
  destruct (sender net v _ _ _ _ _ _ _ _ _) as [[x|e] w']; reflexivity.
Qed.

(** The two lemmas above put together: the whole effect of one [request]. *)
Lemma request_outcome (method url : string) (kwargs : gmap string PyVal) (v : Verb) (w : World) :
  names_verb method v -> accepted kwargs ->
  let session := length (sessions w) + verb_index v in
  let c := call_of v session url (request_timeout (self w))
             (keyword "params" kwargs) (keyword "data" kwargs) (keyword "json" kwargs)
             (header (self w)) (passthrough kwargs) in
  let built := sessions (with_sessions w 5) in
  request net method url kwargs w =
  match send net (calls w) c with
  | Raise e => (Raise e, mkWorld (self w) built (calls w ++ [c]))
  | Return r =>
      match read_response net v r with
      | Raise e => (Raise e, mkWorld (self w) built (calls w ++ [c]))
      | Return x =>
          (Return (PyList [x]),
           mkWorld (self w) (alter close_session session built) (calls w ++ [c]))
      end
  end.
Proof.
  intros Hv Hacc. simpl. rewrite (request_run method url kwargs v w Hv Hacc), sender_run.
  simpl. destruct (send net _ _) as [r|e]; [|reflexivity].
  destruct (read_response net v r); reflexivity.
Qed.

Lemma built_lookup (w : World) (n i : nat) :
  i < n ->
  sessions (with_sessions w n) !! (length (sessions w) + i) =
  Some (mkClientSession 30 (request_timeout (self w)) false).
Proof.
  intros Hi. unfold with_sessions. simpl.
  rewrite lookup_app_r by lia.
  replace (length (sessions w) + i - length (sessions w)) with i by lia.
  apply lookup_replicate. auto.
Qed.

Lemma earlier_lookup (w : World) (n i : nat) :
  i < length (sessions w) -> sessions (with_sessions w n) !! i = sessions w !! i.
Proof.
  intros Hi. unfold with_sessions. simpl. apply lookup_app_l. exact Hi.
Qed.

Lemma verb_index_lt (v : Verb) : verb_index v < 5.
Proof. destruct v; simpl; lia. Qed.

Lemma verb_index_inj (v v' : Verb) : verb_index v = verb_index v' -> v = v'.
Proof. destruct v, v'; simpl; congruence. Qed.

Lemma call_of_verb (v : Verb) session url timeout params data json headers kwargs :
  call_verb (call_of v session url timeout params data json headers kwargs) = v /\
  call_url (call_of v session url timeout params data json headers kwargs) = url /\
  call_session (call_of v session url timeout params data json headers kwargs) = session /\
  call_timeout (call_of v session url timeout params data json headers kwargs) = timeout /\
  call_kwargs (call_of v session url timeout params data json headers kwargs) = kwargs.
Proof. destruct v; simpl; auto. Qed.

(** The log after one [request], whatever the outcome. *)
Lemma request_calls (method url : string) (kwargs : gmap string PyVal) (v : Verb) (w : World) :
  names_verb method v -> accepted kwargs ->
  calls (snd (request net method url kwargs w)) =
  (calls w ++ [call_of v (length (sessions w) + verb_index v) url (request_timeout (self w))
                 (keyword "params" kwargs) (keyword "data" kwargs) (keyword "json" kwargs)
                 (header (self w)) (passthrough kwargs)])%list.
Proof.
  intros Hv Hacc. rewrite (request_outcome method url kwargs v w Hv Hacc). simpl.
  destruct (send net _ _) as [r|e]; [|reflexivity].
  destruct (read_response net v r); reflexivity.
Qed.

(** Where the sessions stand after one [request]: the five new ones were
    appended, and the selected one was closed exactly when the sender
    returned normally.  The [Request] object is untouched. *)
Lemma request_sessions (method url : string) (kwargs : gmap string PyVal) (v : Verb) (w : World) :
  names_verb method v -> accepted kwargs ->
  let w' := snd (request net method url kwargs w) in
  let session := length (sessions w) + verb_index v in
  self w' = self w /\
  (((exists x, fst (request net method url kwargs w) = Return x) /\
    sessions w' = alter close_session session (sessions (with_sessions w 5))) \/
   ((exists e, fst (request net method url kwargs w) = Raise e) /\
    sessions w' = sessions (with_sessions w 5))).
Proof.
  intros Hv Hacc. simpl. rewrite (request_outcome method url kwargs v w Hv Hacc).
  simpl. destruct (send net _ _) as [r|e]; [|simpl; eauto].
  destruct (read_response net v r); simpl; eauto.
Qed.

Lemma built_closed (w : World) (n i : nat) :
  is_closed (with_sessions w n) i -> is_closed w i.
Proof.
  intros (s & Hs & Hc). destruct (decide (i < length (sessions w))) as [Hi|Hi].
  - rewrite earlier_lookup in Hs by exact Hi. exists s. auto.
  - unfold with_sessions in Hs. simpl in Hs. rewrite lookup_app_r in Hs by lia.
    apply lookup_replicate in Hs. destruct Hs as [-> _]. discriminate.
Qed.

Lemma accepted_delete (kwargs : gmap string PyVal) (k : string) :
  accepted kwargs -> accepted (delete k kwargs).
Proof.
  intros H k' Hk'. apply lookup_delete_None. right. apply H. exact Hk'.
Qed.

Lemma passthrough_delete_json (kwargs : gmap string PyVal) :
  passthrough (delete "json" kwargs) = passthrough kwargs.
Proof. unfold passthrough. rewrite delete_delete_eq. reflexivity. Qed.

End Runs.

Lemma acceptedb_accepted (kwargs : gmap string PyVal) :
  acceptedb kwargs = true -> accepted kwargs.
Proof.
  unfold acceptedb, accepted. rewrite forallb_forall. intros H k Hk.
  specialize (H k Hk). destruct (kwargs !! k) eqn:E; [|reflexivity].
  exfalso. rewrite bool_decide_eq_true_2 in H by eauto. discriminate.
Qed.

Ltac accepted_by_computation := apply acceptedb_accepted; reflexivity.

(** [str.lower] on a mixed-case verb. *)
Example lower_mixed_case : lower "DeLeTe" = "delete" /\ names_verb "DeLeTe" DELETE.
Proof. split; reflexivity. Qed.

(** Why the statements below ask for [accepted] options: an option that
    repeats a keyword written out at the sender calls is refused when the
    first entry of the dict is evaluated, after one session was built and
    before anything is sent. *)
Example repeated_keyword_refused :
  let out := request (server ok_a1) "GET" example_url
               (<["headers" := PyDict [("X-Id", PyStr "1")]]> ∅) fresh in
  (exists e, fst out = Raise e /\ exn_class e = "TypeError") /\
  calls (snd out) = [] /\ length (sessions (snd out)) = 1.
Proof. split; [eexists; split; reflexivity | split; reflexivity]. Qed.

(** ** The claims of the specification *)

Section Claims.

Variable net : Transport.

(** C1 (amended).  For a supported method (in any case) and accepted
    options, [_request] builds all five coroutine objects, constructing
    five sessions and issuing no call, before it selects by key; then only
    the selected coroutine runs, so the call issues exactly one HTTP
    request, of the matching verb, against [url].  No response is obtained
    for the other four verbs, hence none is discarded. *)
Theorem dispatch_builds_five_runs_one (method url : string)
    (kwargs : gmap string PyVal) (v : Verb) (w : World) :
  names_verb method v -> accepted kwargs ->
  (exists table w1,
     dispatch_table net url (keyword "params" kwargs) (keyword "data" kwargs)
       (keyword "json" kwargs) (passthrough kwargs) w = (Return table, w1) /\
     (forall v', is_Some (table !! verb_key v')) /\
     issued w w1 [] /\ constructed w w1 5) /\
  (exists c, issued w (snd (request net method url kwargs w)) [c] /\
             call_verb c = v /\ call_url c = url) /\
  ~ fans_out w (snd (request net method url kwargs w)) url.
Proof.
  intros Hv Hacc. split; [|split].
  - eexists _, _. split.
    + apply dispatch_table_run. intros k Hk. apply passthrough_lookup; assumption.
    + split; [|split].
      * intros v'. rewrite table_of_lookup. eauto.
      * unfold issued. simpl. rewrite app_nil_r. reflexivity.
      * unfold constructed. simpl. rewrite length_app. reflexivity.
  - eexists. split; [apply (request_calls net method url kwargs v w Hv Hacc)|].
    split; apply call_of_verb.
  - intros (cs & Hcs & Hperm & _). unfold issued in Hcs.
    rewrite (request_calls net method url kwargs v w Hv Hacc) in Hcs.
    apply app_inv_head in Hcs. subst cs.
    apply Permutation_length in Hperm. simpl in Hperm. discriminate.
Qed.


(** C3 (amended).  For a method that is none of the five verbs in any
    case, [request] fails with Python's [TypeError] (the code defines no
    error class of its own) and issues no network call, whatever the
    options. *)
Theorem unsupported_method_raises_TypeError (method url : string)
    (kwargs : gmap string PyVal) (w : World) :
  unsupported method ->
  exists e, fst (request net method url kwargs w) = Raise e /\
            exn_class e = "TypeError" /\
            issued w (snd (request net method url kwargs w)) [].
Proof.
  intros Hu. unfold issued. rewrite app_nil_r.
  unfold request, call_async.
  destruct (clash ["self"; "method"; "url"] kwargs) as [k|].
  { eexists. simpl. split; [reflexivity|]. split; reflexivity. }
  unfold asyncio_run, _request, mbind, M_bind, mret, M_ret. simpl.
  pose proof (dispatch_table_any net url (keyword "params" kwargs) (keyword "data" kwargs)
                (keyword "json" kwargs) (passthrough kwargs) w) as Ht.
  destruct (dispatch_table net url _ _ _ _ w) as [[table|e] w1].
  - destruct Ht as (-> & Hc & _).
    rewrite table_of_lookup_None by (apply unsupported_key; exact Hu).
    eexists. simpl. split; [reflexivity|]. split; [reflexivity|exact Hc].
  - destruct Ht as (Hcls & Hc & _). exists e. simpl. auto.
Qed.

(** C4 (amended).  For a GET to a URL whose server answers with status 200
    and body [{"a": 1}], decoded by aiohttp to the mapping, [request("GET",
    url)] returns the one-element list that [asyncio.gather] builds around
    the mapping, not the bare mapping. *)
Theorem get_returns_list_of_document (url : string) (kwargs : gmap string PyVal)
    (w : World) (r : Response) :
  accepted kwargs ->
  (forall hist c, call_verb c = GET -> call_url c = url -> send net hist c = Return r) ->
  status r = 200%Z -> body r = body_a1 -> read_json net r = Return json_a1 ->
  fst (request net "GET" url kwargs w) = Return (PyList [json_a1]).
Proof.
  intros Hacc Hsend _ _ Hjson.
  assert (names_verb "GET" GET) as Hv by reflexivity.
  rewrite (request_outcome net "GET" url kwargs GET w Hv Hacc). simpl.
  rewrite Hsend by reflexivity. rewrite Hjson. reflexivity.
Qed.

(** C7 (amended).  For a GET, POST, PUT or PATCH request whose response
    makes [response.json()] raise, the call fails with that very exception,
    propagated unchanged: the code defines no DecodeError and attaches
    neither status nor body. *)
Theorem decode_failure_propagates (method url : string) (kwargs : gmap string PyVal)
    (v : Verb) (w : World) (r : Response) (e : Exn) :
  names_verb method v -> v <> DELETE -> accepted kwargs ->
  (forall hist c, call_verb c = v -> call_url c = url -> send net hist c = Return r) ->
  read_json net r = Raise e ->
  fst (request net method url kwargs w) = Raise e.
Proof.
  intros Hv Hnd Hacc Hsend Hjson.
  rewrite (request_outcome net method url kwargs v w Hv Hacc). simpl.
  rewrite Hsend by apply call_of_verb.
  destruct v; try congruence; simpl; rewrite Hjson; reflexivity.
Qed.

(** C9 (amended).  For a supported method and options that do not repeat
    [session], [headers] or [timeout], one [request] constructs five new
    sessions, leaving the earlier ones as they were; the
    call goes out on the session built for the selected verb; the four
    sessions built for the other verbs are open afterwards; and no session
    other than the selected one becomes closed (the selected one is closed
    exactly when its sender returns). *)
Theorem five_sessions_one_closed (method url : string) (kwargs : gmap string PyVal)
    (v : Verb) (w : World) :
  names_verb method v -> accepted kwargs ->
  let w' := snd (request net method url kwargs w) in
  let base := length (sessions w) in
  constructed w w' 5 /\
  (forall i, i < base -> sessions w' !! i = sessions w !! i) /\
  (exists c, issued w w' [c] /\ call_session c = base + verb_index v) /\
  (forall v', v' <> v -> is_open w' (base + verb_index v')) /\
  (forall i, is_closed w' i -> is_closed w i \/ i = base + verb_index v) /\
  (is_closed w' (base + verb_index v) <->
   exists x, fst (request net method url kwargs w) = Return x).
Proof.
  intros Hv Hacc w' base.
  pose proof (request_sessions net method url kwargs v w Hv Hacc) as [_ Hs].
  fold w' in Hs. subst base.
  assert (forall v', v' <> v -> length (sessions w) + verb_index v <> length (sessions w) + verb_index v') as Hne.
  { intros v' Hv' E. apply Hv'. apply verb_index_inj. lia. }
  split; [|split; [|split; [|split; [|split]]]].
  - unfold constructed.
    destruct Hs as [[_ ->]|[_ ->]]; rewrite ?length_alter; simpl;
      rewrite length_app; reflexivity.
  - intros i Hi.
    destruct Hs as [[_ ->]|[_ ->]].
    + rewrite list_lookup_alter_ne by lia.
      apply earlier_lookup. exact Hi.
    + apply earlier_lookup. exact Hi.
  - eexists. split; [apply (request_calls net method url kwargs v w Hv Hacc)|].
    apply call_of_verb.
  - intros v' Hv'. exists (mkClientSession 30 (request_timeout (self w)) false).
    split; [|reflexivity].
    destruct Hs as [[_ ->]|[_ ->]].
    + rewrite list_lookup_alter_ne by (apply Hne; exact Hv').
      apply built_lookup, verb_index_lt.
    + apply built_lookup, verb_index_lt.
  - intros i Hi. destruct (decide (i = length (sessions w) + verb_index v)) as [->|Hi']; [right; reflexivity|].
    left. apply (built_closed w 5). destruct Hi as (s & Hl & Hc). exists s. split; [|exact Hc].
    destruct Hs as [[_ E]|[_ E]]; rewrite E in Hl.
    + rewrite list_lookup_alter_ne in Hl by congruence. exact Hl.
    + exact Hl.
  - split.
    + intros (s & Hl & Hc). destruct Hs as [[Hx _]|[_ E]]; [exact Hx|].
      rewrite E, built_lookup in Hl by apply verb_index_lt.
      injection Hl as <-. discriminate.
    + intros [x Hx]. destruct Hs as [[_ E]|[[e He] _]]; [|congruence].
      exists (close_session (mkClientSession 30 (request_timeout (self w)) false)).
      rewrite E, list_lookup_alter_eq, built_lookup by apply verb_index_lt.
      split; reflexivity.
Qed.

(** C8.  The timeout setter called with [value] replaces the stored
    timeout by [ClientTimeout(total=value)] and changes nothing else; a
    request issued afterwards sends its call, and builds its session, with
    the new timeout and leaves the stored value in place for the requests
    that follow; a request that has already built its coroutines when the
    setter runs goes on with the timeout it read before. *)
Theorem timeout_setter_effect (value : PyVal) (method url : string)
    (kwargs : gmap string PyVal) (v : Verb) (w : World) :
  names_verb method v -> accepted kwargs ->
  let w1 := snd (_time_out_setter value w) in
  (request_timeout (self w1) = mkClientTimeout value /\
   header (self w1) = header (self w) /\
   session_timeout (self w1) = session_timeout (self w) /\
   sessions w1 = sessions w /\ calls w1 = calls w) /\
  (let w2 := snd (request net method url kwargs w1) in
   (exists c s, issued w1 w2 [c] /\ call_timeout c = mkClientTimeout value /\
                sessions w2 !! call_session c = Some s /\
                timeout_of_session s = mkClientTimeout value) /\
   self w2 = self w1) /\
  (exists table wb,
     dispatch_table net url (keyword "params" kwargs) (keyword "data" kwargs)
       (keyword "json" kwargs) (passthrough kwargs) w = (Return table, wb) /\
     let wc := snd (_time_out_setter value wb) in
     let wd := snd (gather (table !! lower method) wc) in
     request_timeout (self wc) = mkClientTimeout value /\
     exists c s, issued wc wd [c] /\ call_timeout c = request_timeout (self w) /\
                 sessions wd !! call_session c = Some s /\
                 timeout_of_session s = request_timeout (self w)).
Proof.
  intros Hv Hacc w1. split; [|split].
  - simpl. auto.
  - intros w2.
    pose proof (request_sessions net method url kwargs v w1 Hv Hacc) as [Hself Hs].
    fold w2 in Hs, Hself. split; [|exact Hself].
    pose proof (request_calls net method url kwargs v w1 Hv Hacc) as Hc. fold w2 in Hc.
    pose proof (built_lookup w1 5 (verb_index v) (verb_index_lt v)) as Hb.
    destruct Hs as [[_ E]|[_ E]].
    + eexists _, (close_session _). split; [exact Hc|]. split; [apply call_of_verb|].
      destruct (call_of_verb v (length (sessions w1) + verb_index v) url
                  (request_timeout (self w1)) (keyword "params" kwargs)
                  (keyword "data" kwargs) (keyword "json" kwargs) (header (self w1))
                  (passthrough kwargs)) as (_ & _ & -> & _).
      rewrite E, list_lookup_alter_eq, Hb. split; reflexivity.
    + eexists _, _. split; [exact Hc|]. split; [apply call_of_verb|].
      destruct (call_of_verb v (length (sessions w1) + verb_index v) url
                  (request_timeout (self w1)) (keyword "params" kwargs)
                  (keyword "data" kwargs) (keyword "json" kwargs) (header (self w1))
                  (passthrough kwargs)) as (_ & _ & -> & _).
      rewrite E, Hb. split; reflexivity.
  - eexists _, _. split.
    { apply dispatch_table_run. intros k Hk. apply passthrough_lookup; assumption. }
    intros wc wd. split; [reflexivity|].
    pose proof (built_lookup w 5 (verb_index v) (verb_index_lt v)) as Hb.
    subst wd. rewrite (names_verb_key method v Hv), table_of_lookup.
    unfold gather, mbind, M_bind, mret, M_ret. rewrite sender_run.
    set (c := call_of v _ _ _ _ _ _ _ _).
    assert (call_session c = length (sessions w) + verb_index v) as Hsess by apply call_of_verb.
    assert (call_timeout c = request_timeout (self w)) as Htime by apply call_of_verb.
    simpl. destruct (send net _ c) as [r|e]; [destruct (read_response net v r)|]; simpl.
    + exists c, (close_session (mkClientSession 30 (request_timeout (self w)) false)).
      unfold issued. simpl. rewrite Hsess, list_lookup_alter_eq.
      change (sessions w ++ _)%list with (sessions (with_sessions w 5)). rewrite Hb. auto.
    + exists c, (mkClientSession 30 (request_timeout (self w)) false).
      unfold issued. simpl. rewrite Hsess.
      change (sessions w ++ _)%list with (sessions (with_sessions w 5)). rewrite Hb. auto.
    + exists c, (mkClientSession 30 (request_timeout (self w)) false).
      unfold issued. simpl. rewrite Hsess.
      change (sessions w ++ _)%list with (sessions (with_sessions w 5)). rewrite Hb. auto.
Qed.

(** C10.  The [json] argument of [request] reaches the transport only when
    the verb is POST.  For every other verb the call carries no [json], and
    the request runs exactly as if [json] had not been given; for PUT and
    PATCH the [data] argument is what is forwarded. *)
Theorem json_forwarded_only_by_post (method url : string)
    (kwargs : gmap string PyVal) (v : Verb) (w : World) :
  names_verb method v -> accepted kwargs ->
  exists c, issued w (snd (request net method url kwargs w)) [c] /\
    call_kwargs c !! "json" = None /\
    (v = POST -> call_json c = Some (keyword "json" kwargs)) /\
    (v <> POST ->
       call_json c = None /\
       request net method url kwargs w = request net method url (delete "json" kwargs) w) /\
    (v = PUT \/ v = PATCH ->
       call_data c = Some (keyword "data" kwargs) /\ call_params c = None).
Proof.
  intros Hv Hacc. eexists.
  split; [apply (request_calls net method url kwargs v w Hv Hacc)|].
  split; [|split; [|split]].
  - destruct (call_of_verb v (length (sessions w) + verb_index v) url
                (request_timeout (self w)) (keyword "params" kwargs)
                (keyword "data" kwargs) (keyword "json" kwargs) (header (self w))
                (passthrough kwargs)) as (_ & _ & _ & _ & ->).
    unfold passthrough. rewrite !lookup_delete. repeat case_decide; congruence.
  - intros ->. reflexivity.
  - intros Hnp. split; [destruct v; try congruence; reflexivity|].
    rewrite (request_outcome net method url kwargs v w Hv Hacc).
    rewrite (request_outcome net method url (delete "json" kwargs) v w Hv
               (accepted_delete kwargs "json" Hacc)).
    rewrite passthrough_delete_json.
    unfold keyword. rewrite !(lookup_delete_ne kwargs "json") by discriminate.
    destruct v; try congruence; reflexivity.
  - intros [-> | ->]; split; reflexivity.
Qed.

End Claims.

(** ** The claims on concrete runs *)

(** C1, as the specification words it, fails: a GET against a server that
    answers with JSON leaves exactly one call in the log, not one call per
    verb. *)
Lemma fan_out_refuted :
  names_verb "GET" GET /\
  length (calls (snd (request (server ok_a1) "GET" example_url ∅ fresh))) = 1 /\
  ~ fans_out fresh (snd (request (server ok_a1) "GET" example_url ∅ fresh)) example_url.
Proof.
  split; [reflexivity|]. split; [reflexivity|].
  intros (cs & Hcs & Hperm & _). unfold issued in Hcs. vm_compute in Hcs.
  subst cs. apply Permutation_length in Hperm. discriminate.
Qed.

Lemma dispatch_builds_five_runs_one_witness :
  names_verb "GET" GET /\ accepted ∅ /\
  (exists c, issued fresh (snd (request (server ok_a1) "GET" example_url ∅ fresh)) [c] /\
             call_verb c = GET /\ call_url c = example_url).
Proof.
  split; [reflexivity|]. split; [accepted_by_computation|].
  apply (dispatch_builds_five_runs_one (server ok_a1) "GET" example_url ∅ GET fresh);
    [reflexivity | accepted_by_computation].
Defined.



(** C9, as worded, fails: a GET given a [timeout] option builds one session
    and stops there; five sessions are not constructed. *)
Lemma five_sessions_refuted :
  names_verb "GET" GET /\
  length (sessions (snd (request (server ok_a1) "GET" example_url
                           (<["timeout" := PyInt 3]> ∅) fresh))) = 1 /\
  ~ constructed fresh
      (snd (request (server ok_a1) "GET" example_url (<["timeout" := PyInt 3]> ∅) fresh)) 5.
Proof.
  split; [reflexivity|]. split; [reflexivity|].
  unfold constructed. vm_compute. discriminate.
Qed.

(** C3, as worded, fails: for "HEAD" the exception is a [TypeError], not an
    UnsupportedMethodError. *)
Lemma unsupported_method_error_refuted :
  unsupported "HEAD" /\
  ~ (exists e, fst (request (server ok_a1) "HEAD" example_url ∅ fresh) = Raise e /\
               is_UnsupportedMethodError e).
Proof.
  split; [intros v; destruct v; reflexivity|].
  intros (e & He & Hcls). vm_compute in He. injection He as <-.
  unfold is_UnsupportedMethodError in Hcls. simpl in Hcls. discriminate.
Qed.

Lemma unsupported_method_raises_TypeError_witness :
  unsupported "HEAD" /\
  exists e, fst (request (server ok_a1) "HEAD" example_url ∅ fresh) = Raise e /\
            exn_class e = "TypeError" /\
            issued fresh (snd (request (server ok_a1) "HEAD" example_url ∅ fresh)) [].
Proof.
  split; [intros v; destruct v; reflexivity|].
  apply (unsupported_method_raises_TypeError (server ok_a1) "HEAD" example_url ∅ fresh).
  intros v; destruct v; reflexivity.
Defined.

(** C4, as worded, fails: the value returned for the document [{"a": 1}]
    is not the mapping. *)
Lemma get_bare_mapping_refuted :
  status ok_a1 = 200%Z /\ body ok_a1 = body_a1 /\
  read_json (server ok_a1) ok_a1 = Return json_a1 /\
  fst (request (server ok_a1) "GET" example_url ∅ fresh) <> Return json_a1.
Proof.
  split; [reflexivity|]. split; [reflexivity|]. split; [reflexivity|].
  vm_compute. discriminate.
Qed.

Lemma get_returns_list_of_document_witness :
  accepted ∅ /\
  fst (request (server ok_a1) "GET" example_url ∅ fresh) = Return (PyList [json_a1]).
Proof.
  split; [accepted_by_computation|].
  apply (get_returns_list_of_document (server ok_a1) example_url ∅ fresh ok_a1);
    [accepted_by_computation | reflexivity | reflexivity
    | reflexivity | reflexivity].
Defined.

(** C5 at its failing input: a DELETE answered by 204 with an empty body.
    The call is sent, then [await response.status] raises; 204 is never
    returned, whatever the JSON decoder would do (it is not consulted), and
    the session used for the call stays open. *)
Theorem delete_raises_instead_of_status :
  forall decoder : Response -> Result PyVal,
    let out := request (mkTransport (fun _ _ => Return no_content) decoder)
                 "DELETE" example_url ∅ fresh in
    (exists e, fst out = Raise e /\ exn_class e = "TypeError") /\
    fst out <> Return (PyInt 204) /\
    (exists c, calls (snd out) = [c] /\ call_verb c = DELETE /\
               is_open (snd out) (call_session c)).
Proof.
  intros decoder out. split; [eexists; split; reflexivity|]. split; [discriminate|].
  eexists. split; [reflexivity|]. split; [reflexivity|].
  eexists. split; reflexivity.
Qed.

(** C6 at its failing input: a POST answered with a body that is not
    JSON.  The decoder's exception reaches the caller while the session the
    POST went out on, and the four others, are still open. *)
Theorem post_decode_failure_leaves_session_open :
  let out := request (server html_page) "POST" example_url ∅ fresh in
  (exists e, read_json (server html_page) html_page = Raise e /\ fst out = Raise e) /\
  (exists c, calls (snd out) = [c] /\ call_verb c = POST /\
             is_open (snd out) (call_session c)) /\
  (forall i, i < 5 -> is_open (snd out) i).
Proof.
  intros out. split; [|split].
  - eexists. split; reflexivity.
  - eexists. split; [reflexivity|]. split; [reflexivity|]. eexists. split; reflexivity.
  - intros i Hi.
    destruct i as [|[|[|[|[|i]]]]]; [| | | | |lia]; eexists; split; reflexivity.
Qed.

(** C7, as worded, fails: the exception that reaches the caller is the
    decoder's own, not a DecodeError with status and body. *)
Lemma decode_error_refuted :
  (exists e, read_json (server html_page) html_page = Raise e) /\
  ~ (exists e, fst (request (server html_page) "POST" example_url ∅ fresh) = Raise e /\
               is_DecodeError e html_page).
Proof.
  split; [eexists; reflexivity|].
  intros (e & He & Hcls & _). vm_compute in He. injection He as <-.
  simpl in Hcls. discriminate.
Qed.

Lemma decode_failure_propagates_witness :
  names_verb "post" POST /\ POST <> DELETE /\ accepted ∅ /\
  fst (request (server html_page) "post" example_url ∅ fresh) =
  Raise (mkExn "ContentTypeError"
           [PyInt 200; PyStr "Attempt to decode JSON with unexpected mimetype"]).
Proof.
  split; [reflexivity|]. split; [discriminate|].
  split; [accepted_by_computation|].
  apply (decode_failure_propagates (server html_page) "post" example_url ∅ POST fresh
           html_page);
    [reflexivity | discriminate | accepted_by_computation
    | reflexivity | reflexivity].
Defined.

Lemma timeout_setter_effect_witness :
  names_verb "get" GET /\ accepted ∅ /\
  (let w1 := snd (_time_out_setter (PyInt 5) fresh) in
   request_timeout (self w1) = mkClientTimeout (PyInt 5) /\
   exists c s, issued w1 (snd (request (server ok_a1) "get" example_url ∅ w1)) [c] /\
               call_timeout c = mkClientTimeout (PyInt 5) /\
               sessions (snd (request (server ok_a1) "get" example_url ∅ w1))
                 !! call_session c = Some s /\
               timeout_of_session s = mkClientTimeout (PyInt 5)).
Proof.
  split; [reflexivity|]. split; [accepted_by_computation|].
  destruct (timeout_setter_effect (server ok_a1) (PyInt 5) "get" example_url ∅ GET fresh)
    as [[H1 _] [[H2 _] _]];
    [reflexivity | accepted_by_computation |].
  split; [exact H1 | exact H2].
Defined.

Lemma five_sessions_one_closed_witness :
  names_verb "Delete" DELETE /\ accepted ∅ /\
  constructed fresh (snd (request (server no_content) "Delete" example_url ∅ fresh)) 5 /\
  (forall v', v' <> DELETE ->
     is_open (snd (request (server no_content) "Delete" example_url ∅ fresh))
       (length (sessions fresh) + verb_index v')).
Proof.
  split; [reflexivity|]. split; [accepted_by_computation|].
  destruct (five_sessions_one_closed (server no_content) "Delete" example_url ∅ DELETE fresh)
    as (H1 & _ & _ & H2 & _);
    [reflexivity | accepted_by_computation |].
  split; [exact H1 | exact H2].
Defined.

Lemma json_forwarded_only_by_post_witness :
  names_verb "PUT" PUT /\ accepted put_options /\
  exists c, issued fresh (snd (request (server ok_a1) "PUT" example_url put_options fresh)) [c] /\
            call_json c = None /\ call_data c = Some (PyStr "x=1") /\
            request (server ok_a1) "PUT" example_url put_options fresh =
            request (server ok_a1) "PUT" example_url (delete "json" put_options) fresh.
Proof.
  split; [reflexivity|]. split; [accepted_by_computation|].
  destruct (json_forwarded_only_by_post (server ok_a1) "PUT" example_url put_options PUT fresh)
    as (c & Hc & _ & _ & Hdrop & Hdata);
    [reflexivity | accepted_by_computation |].
  exists c. split; [exact Hc|].
  destruct Hdrop as [Hnone Hsame]; [discriminate|].
  split; [exact Hnone|]. split; [|exact Hsame].
  destruct Hdata as [Hd _]; [left; reflexivity|]. exact Hd.
Defined.

(** ** Further properties of the code *)

Lemma verb_of_key (k : string) :
  {v : Verb | k = verb_key v} + {forall v, k <> verb_key v}.
Proof.
  destruct (decide (k = "get")) as [->|H1]; [left; exists GET; reflexivity|].
  destruct (decide (k = "post")) as [->|H2]; [left; exists POST; reflexivity|].
  destruct (decide (k = "put")) as [->|H3]; [left; exists PUT; reflexivity|].
  destruct (decide (k = "patch")) as [->|H4]; [left; exists PATCH; reflexivity|].
  destruct (decide (k = "delete")) as [->|H5]; [left; exists DELETE; reflexivity|].
  right. intros v; destruct v; simpl; assumption.
Qed.

Lemma clash_some (given : list string) (kwargs : gmap string PyVal) (k : string) :
  In k given -> is_Some (kwargs !! k) -> exists k', clash given kwargs = Some k'.
Proof.
  unfold clash. induction given as [|g given IH]; intros Hin Hk; [destruct Hin|].
  simpl. destruct (bool_decide (is_Some (kwargs !! g))) eqn:E; [eauto|].
  destruct Hin as [->|Hin]; [|auto].
  rewrite bool_decide_eq_true_2 in E by exact Hk. discriminate.
Qed.

Lemma passthrough_other (kwargs : gmap string PyVal) (k : string) :
  k <> "params" -> k <> "data" -> k <> "json" ->
  passthrough kwargs !! k = kwargs !! k.
Proof.
  intros H1 H2 H3. unfold passthrough.
  rewrite !lookup_delete_ne by congruence. reflexivity.
Qed.

Lemma passthrough_delete (kwargs : gmap string PyVal) (k : string) :
  In k ["params"; "data"; "json"] -> passthrough (delete k kwargs) = passthrough kwargs.
Proof.
  intros Hk. unfold passthrough. apply map_eq. intros i. rewrite !lookup_delete.
  simpl in Hk. destruct Hk as [<-|[<-|[<-|[]]]]; repeat case_decide; congruence.
Qed.

Section Shape.

Variable net : Transport.

(** Building the dict, whatever the options: the sessions built so far are
    appended, at most five of them, and nothing else changes. *)
Lemma dispatch_table_shape (url : string) (params data json : PyVal)
    (kwargs : gmap string PyVal) (w : World) :
  exists n, n <= 5 /\
    snd (dispatch_table net url params data json kwargs w) = with_sessions w n /\
    match fst (dispatch_table net url params data json kwargs w) with
    | Return table =>
        n = 5 /\
        table = table_of net (length (sessions w)) url (request_timeout (self w))
                  params data json (header (self w)) kwargs
    | Raise e => exn_class e = "TypeError"
    end.
Proof.
  unfold dispatch_table, call_async.
  destruct (clash ["session"; "url"; "params"; "headers"; "timeout"] kwargs);
    [exists 1; split; [lia|]; split; reflexivity|].
  destruct (clash ["session"; "url"; "data"; "json"; "headers"; "timeout"] kwargs);
    [exists 2; split; [lia|];
     unfold mbind, M_bind, mret, M_ret, _client_session, _time_out, get_header,
       ClientSession_new, raise, with_sessions; simpl; rewrite <- ?app_assoc;
     split; reflexivity|].
  destruct (clash ["session"; "url"; "data"; "headers"; "timeout"] kwargs);
    [exists 3; split; [lia|];
     unfold mbind, M_bind, mret, M_ret, _client_session, _time_out, get_header,
       ClientSession_new, raise, with_sessions; simpl; rewrite <- ?app_assoc;
     split; reflexivity|].
  destruct (clash ["session"; "url"; "headers"; "timeout"] kwargs);
    [exists 5; split; [lia|];
     unfold mbind, M_bind, mret, M_ret, _client_session, _time_out, get_header,
       ClientSession_new, raise, with_sessions; simpl; rewrite <- ?app_assoc;
     split; reflexivity|].
  exists 5. split; [lia|].
  unfold mbind, M_bind, mret, M_ret, _client_session, _time_out, get_header,
    ClientSession_new, table_of, with_sessions. simpl.
  split; [rewrite <- ?app_assoc; reflexivity|]. split; [reflexivity|].
  rewrite !length_app. simpl. rewrite <- !Nat.add_assoc. simpl. rewrite Nat.add_0_r. reflexivity.
Qed.

End Shape.

Section Extras.

Variable net : Transport.

Lemma built_length (w : World) (n : nat) :
  length (sessions (with_sessions w n)) = length (sessions w) + n.
Proof. unfold with_sessions. simpl. rewrite length_app, length_replicate. reflexivity. Qed.

(** What one [request] can do to the state, for any method and any
    options. *)
Lemma request_shape (method url : string) (kwargs : gmap string PyVal) (w : World) :
  let w' := snd (request net method url kwargs w) in
  self w' = self w /\
  (exists n, n <= 5 /\ length (sessions w') = length (sessions w) + n) /\
  (forall i, i < length (sessions w) -> sessions w' !! i = sessions w !! i) /\
  (calls w' = calls w \/
   exists c, calls w' = (calls w ++ [c])%list /\ call_url c = url /\
             length (sessions w) <= call_session c < length (sessions w')).
Proof.
  unfold request, call_async.
  destruct (clash ["self"; "method"; "url"] kwargs) as [k|].
  { simpl. split; [reflexivity|]. split; [exists 0; split; lia|]. split; auto. }
  unfold asyncio_run, _request, mbind, M_bind, mret, M_ret. cbv beta iota zeta.
  destruct (dispatch_table_shape net url (keyword "params" kwargs) (keyword "data" kwargs)
              (keyword "json" kwargs) (passthrough kwargs) w) as (n & Hn & Hw & Ht).
  destruct (dispatch_table net url _ _ _ _ w) as [[table|e] w1]; simpl in Hw, Ht; subst w1.
  2: { cbn [snd]. split; [reflexivity|]. split; [exists n; split; [lia|apply built_length]|].
       split; [intros i Hi; apply earlier_lookup; exact Hi | left; reflexivity]. }
  destruct Ht as [-> ->].
  destruct (verb_of_key (lower method)) as [[v Hk]|Hk].
  2: { rewrite table_of_lookup_None by exact Hk. simpl.
       split; [reflexivity|]. split; [exists 5; split; [lia|apply (built_length w 5)]|].
       split; [intros i Hi; apply (earlier_lookup w 5); exact Hi | left; reflexivity]. }
  rewrite Hk, table_of_lookup. unfold gather, mbind, M_bind, mret, M_ret.
  rewrite sender_run.
  set (c := call_of v _ _ _ _ _ _ _ _).
  assert (call_session c = length (sessions w) + verb_index v) as Hsess by apply call_of_verb.
  assert (call_url c = url) as Hurl by apply call_of_verb.
  pose proof (verb_index_lt v) as Hlt.
  pose proof (built_length w 5) as Hlen.
  cbv zeta.
  destruct (send net _ c) as [r|e]; [destruct (read_response net v r)|]; simpl snd;
    cbn [self sessions calls].
  all: split; [reflexivity|].
  all: unfold with_sessions; cbn [self sessions calls].
  all: rewrite ?length_alter, ?length_app, ?length_replicate; cbn [length replicate].
  all: split; [exists 5; split; lia|].
  all: split;
    [intros i Hi; rewrite ?list_lookup_alter_ne by lia; apply lookup_app_l; exact Hi|].
  all: right; exists c; split; [reflexivity|]; split; [exact Hurl|]; rewrite Hsess; lia.
Qed.

(** X1.  A failure of the transport (connection refused, timeout, ...)
    reaches the caller as the very exception aiohttp raised, for every verb;
    the call was made once, and none of the five sessions built for the
    request is closed. *)
Theorem transport_failure_propagates (method url : string) (kwargs : gmap string PyVal)
    (v : Verb) (w : World) (e : Exn) :
  names_verb method v -> accepted kwargs ->
  (forall hist c, call_verb c = v -> call_url c = url -> send net hist c = Raise e) ->
  let out := request net method url kwargs w in
  fst out = Raise e /\
  (exists c, issued w (snd out) [c] /\ call_verb c = v) /\
  (forall v', is_open (snd out) (length (sessions w) + verb_index v')).
Proof.
  intros Hv Hacc Hsend out. subst out.
  rewrite (request_outcome net method url kwargs v w Hv Hacc). cbv zeta.
  rewrite Hsend by apply call_of_verb. cbn [fst snd].
  split; [reflexivity|]. split.
  - eexists. split; [reflexivity|]. apply call_of_verb.
  - intros v'. eexists. split; [apply built_lookup, verb_index_lt | reflexivity].
Qed.

(** X2.  When the server answers and the body decodes, each of GET, POST,
    PUT and PATCH returns the decoded document inside a one-element list and
    has closed the session its call went out on. *)
Theorem json_verbs_return_singleton (method url : string) (kwargs : gmap string PyVal)
    (v : Verb) (w : World) (r : Response) (j : PyVal) :
  names_verb method v -> v <> DELETE -> accepted kwargs ->
  (forall hist c, call_verb c = v -> call_url c = url -> send net hist c = Return r) ->
  read_json net r = Return j ->
  let out := request net method url kwargs w in
  fst out = Return (PyList [j]) /\
  is_closed (snd out) (length (sessions w) + verb_index v).
Proof.
  intros Hv Hnd Hacc Hsend Hjson out. subst out.
  rewrite (request_outcome net method url kwargs v w Hv Hacc). cbv zeta.
  rewrite Hsend by apply call_of_verb.
  assert (read_response net v r = Return j) as -> by (destruct v; simpl; congruence).
  cbn [fst snd]. split; [reflexivity|].
  exists (close_session (mkClientSession 30 (request_timeout (self w)) false)).
  cbn [sessions]. rewrite list_lookup_alter_eq, built_lookup by apply verb_index_lt.
  split; reflexivity.
Qed.

Lemma built_open (w : World) (n i : nat) :
  length (sessions w) <= i < length (sessions w) + n -> is_open (with_sessions w n) i.
Proof.
  intros Hi. exists (mkClientSession 30 (request_timeout (self w)) false).
  split; [|reflexivity].
  replace i with (length (sessions w) + (i - length (sessions w))) by lia.
  apply built_lookup. lia.
Qed.

(** X3.  A DELETE never returns a value, whatever the server answers and
    whatever the options: the call ends in an exception, which is a
    [TypeError] (a refused option, or the await of the integer status) or
    the exception the transport raised for the DELETE call; every session
    built for the request stays open, and with options that do not repeat
    [session], [headers] or [timeout] five sessions are built. *)
Theorem delete_never_returns (method url : string) (kwargs : gmap string PyVal) (w : World) :
  names_verb method DELETE ->
  let out := request net method url kwargs w in
  (exists e, fst out = Raise e /\
     (exn_class e = "TypeError" \/
      exists c, call_verb c = DELETE /\ call_url c = url /\
                send net (calls w) c = Raise e)) /\
  (forall i, length (sessions w) <= i < length (sessions (snd out)) ->
             is_open (snd out) i) /\
  (accepted kwargs -> constructed w (snd out) 5).
Proof.
  intros Hv out. subst out.
  assert (forall A B C : Prop, A /\ B -> C -> A /\ B /\ C) as Hsplit by tauto.
  apply Hsplit; clear Hsplit.
  2: { intros Hacc. rewrite (request_outcome net method url kwargs DELETE w Hv Hacc).
       cbv zeta. unfold constructed.
       destruct (send net _ _) as [r|e]; cbn [read_response snd sessions];
         apply (built_length w 5). }
  unfold request, call_async.
  destruct (clash ["self"; "method"; "url"] kwargs) as [k|].
  { unfold raise. cbn [fst snd].
    split; [eexists; split; [reflexivity|left; reflexivity]|].
    intros i Hi. unfold raise in Hi. simpl in Hi. lia. }
  unfold asyncio_run, _request, mbind, M_bind, mret, M_ret. cbv beta iota zeta.
  destruct (dispatch_table_shape net url (keyword "params" kwargs) (keyword "data" kwargs)
              (keyword "json" kwargs) (passthrough kwargs) w) as (n & Hn & Hw & Ht).
  destruct (dispatch_table net url _ _ _ _ w) as [[table|e] w1]; simpl in Hw, Ht; subst w1.
  2: { cbn [fst snd]. split; [exists e; split; [reflexivity|left; exact Ht]|].
       intros i Hi. rewrite built_length in Hi. apply built_open. exact Hi. }
  destruct Ht as [-> ->].
  rewrite (names_verb_key method DELETE Hv), table_of_lookup.
  unfold gather, mbind, M_bind, mret, M_ret. rewrite sender_run. cbv zeta.
  destruct (send net _ _) as [r|e] eqn:Hsend; cbn [read_response fst snd].
  - split; [eexists; split; [reflexivity|left; reflexivity]|].
    intros i Hi. cbn [sessions] in Hi.
    change (length (sessions w ++ _)%list) with (length (sessions (with_sessions w 5))) in Hi.
    rewrite built_length in Hi. apply (built_open w 5 i) in Hi.
    destruct Hi as (s & Hs & Hc). exists s. split; assumption.
  - split.
    + exists e. split; [reflexivity|]. right. eexists.
      split; [|split; [|exact Hsend]]; reflexivity.
    + intros i Hi. cbn [sessions] in Hi.
      change (length (sessions w ++ _)%list) with (length (sessions (with_sessions w 5))) in Hi.
      rewrite built_length in Hi. apply (built_open w 5 i) in Hi.
      destruct Hi as (s & Hs & Hc). exists s. split; assumption.
Qed.

(** X4.  For any method and any options, [request] leaves the [Request]
    object as it was, leaves every session that existed before as it was
    (none is closed or replaced), and adds at most one call to the log, which
    then is against the given URL. *)
Theorem request_frame (method url : string) (kwargs : gmap string PyVal) (w : World) :
  let w' := snd (request net method url kwargs w) in
  self w' = self w /\
  (forall i s, sessions w !! i = Some s -> sessions w' !! i = Some s) /\
  (exists cs, issued w w' cs /\ length cs <= 1 /\ Forall (fun c => call_url c = url) cs).
Proof.
  intros w'. destruct (request_shape method url kwargs w) as (Hself & _ & Hold & Hcalls).
  fold w' in Hself, Hold, Hcalls. split; [exact Hself|]. split.
  - intros i s Hs. rewrite Hold; [exact Hs|]. apply lookup_lt_Some in Hs. exact Hs.
  - destruct Hcalls as [Hc|(c & Hc & Hurl & _)].
    + exists []. unfold issued. rewrite app_nil_r. split; [exact Hc|]. split; [simpl; lia|constructor].
    + exists [c]. split; [exact Hc|]. split; [simpl; lia|]. constructor; [exact Hurl|constructor].
Qed.

(** X5.  An option named [session], [headers] or [timeout] makes any call
    of [request] fail with a [TypeError] before anything is sent: the first
    sender call of the dict literal is refused, after one session was built,
    which is left open. *)
Theorem refused_option_raises (method url : string) (kwargs : gmap string PyVal)
    (w : World) (k : string) :
  (forall k', In k' ["self"; "method"; "url"] -> kwargs !! k' = None) ->
  In k refused_options -> is_Some (kwargs !! k) ->
  let out := request net method url kwargs w in
  (exists e, fst out = Raise e /\ exn_class e = "TypeError") /\
  issued w (snd out) [] /\ constructed w (snd out) 1 /\
  is_open (snd out) (length (sessions w)).
Proof.
  intros Hfree Hk Hsome out. subst out.
  assert (exists k', clash ["session"; "url"; "params"; "headers"; "timeout"]
                       (passthrough kwargs) = Some k') as [k' Hc].
  { apply (clash_some _ _ k).
    - unfold refused_options in Hk. simpl in Hk |- *. tauto.
    - rewrite passthrough_other; [exact Hsome| | |];
        unfold refused_options in Hk; simpl in Hk;
        destruct Hk as [<-|[<-|[<-|[]]]]; discriminate. }
  unfold request, call_async. rewrite (clash_none _ _ Hfree).
  unfold asyncio_run, _request, dispatch_table, call_async, mbind, M_bind, mret, M_ret.
  cbv beta iota zeta. rewrite Hc.
  unfold _client_session, _time_out, get_header, ClientSession_new, raise, mbind, M_bind.
  cbn [fst snd]. split; [eexists; split; reflexivity|].
  unfold issued, constructed, is_open. cbn [calls sessions].
  rewrite app_nil_r, length_app. split; [reflexivity|]. split; [reflexivity|].
  exists (mkClientSession 30 (request_timeout (self w)) false).
  split; [|reflexivity]. rewrite lookup_app_r by lia.
  rewrite Nat.sub_diag. reflexivity.
Qed.

(** X6.  Only the lower-cased method matters: two spellings that differ
    in character case give the same run, result and state, supported verb
    or not. *)
Theorem method_case_is_irrelevant (method method' url : string)
    (kwargs : gmap string PyVal) (w : World) :
  caseless_eq method method' = true ->
  request net method url kwargs w = request net method' url kwargs w.
Proof.
  intros H. apply caseless_eq_lower in H. unfold request, _request. rewrite H. reflexivity.
Qed.

(** X7.  Each of the five sessions a request builds has a connector limited
    to 30 connections and the timeout the object stored when the request
    started, whether or not the session was used or closed. *)
Theorem built_sessions_share_configuration (method url : string)
    (kwargs : gmap string PyVal) (v : Verb) (w : World) :
  names_verb method v -> accepted kwargs ->
  forall v', exists s,
    sessions (snd (request net method url kwargs w)) !! (length (sessions w) + verb_index v')
      = Some s /\
    connector_limit s = 30%Z /\ timeout_of_session s = request_timeout (self w).
Proof.
  intros Hv Hacc v'.
  pose proof (request_sessions net method url kwargs v w Hv Hacc) as [_ Hs].
  pose proof (built_lookup w 5 (verb_index v') (verb_index_lt v')) as Hb.
  destruct Hs as [[_ ->]|[_ ->]]; [|eexists; split; [exact Hb|split; reflexivity]].
  destruct (decide (v' = v)) as [->|Hne].
  - eexists. rewrite list_lookup_alter_eq, Hb. split; [reflexivity|]. split; reflexivity.
  - eexists. rewrite list_lookup_alter_ne, Hb; [split; [reflexivity|split; reflexivity]|].
    intros E. apply Hne. apply verb_index_inj. lia.
Qed.

Lemma call_of_headers (v : Verb) session url timeout params data json headers kwargs :
  call_headers (call_of v session url timeout params data json headers kwargs) = headers.
Proof. destruct v; reflexivity. Qed.

(** X8.  The call that reaches the transport carries the object's default
    headers and stored timeout, and every option other than [params], [data]
    and [json] exactly as the caller gave it; those three are never among
    the passed-through options. *)
Theorem options_forwarded_unchanged (method url : string)
    (kwargs : gmap string PyVal) (v : Verb) (w : World) :
  names_verb method v -> accepted kwargs ->
  exists c, issued w (snd (request net method url kwargs w)) [c] /\
    call_headers c = header (self w) /\
    call_timeout c = request_timeout (self w) /\
    (forall k, k <> "params" -> k <> "data" -> k <> "json" ->
               call_kwargs c !! k = kwargs !! k) /\
    (forall k, In k ["params"; "data"; "json"] -> call_kwargs c !! k = None).
Proof.
  intros Hv Hacc. eexists.
  split; [apply (request_calls net method url kwargs v w Hv Hacc)|].
  split; [apply call_of_headers|]. split; [apply call_of_verb|].
  destruct (call_of_verb v (length (sessions w) + verb_index v) url
              (request_timeout (self w)) (keyword "params" kwargs)
              (keyword "data" kwargs) (keyword "json" kwargs) (header (self w))
              (passthrough kwargs)) as (_ & _ & _ & _ & ->).
  split.
  - intros k H1 H2 H3. apply passthrough_other; assumption.
  - intros k Hk. unfold passthrough. rewrite !lookup_delete.
    simpl in Hk. destruct Hk as [<-|[<-|[<-|[]]]]; repeat case_decide; congruence.
Qed.

(** X9.  The [params] argument reaches the transport only with GET; with
    any other verb the call has no [params] and the request runs exactly as
    if [params] had not been given. *)
Theorem params_forwarded_only_by_get (method url : string)
    (kwargs : gmap string PyVal) (v : Verb) (w : World) :
  names_verb method v -> accepted kwargs ->
  exists c, issued w (snd (request net method url kwargs w)) [c] /\
    (v = GET -> call_params c = Some (keyword "params" kwargs)) /\
    (v <> GET ->
       call_params c = None /\
       request net method url kwargs w = request net method url (delete "params" kwargs) w).
Proof.
  intros Hv Hacc. eexists.
  split; [apply (request_calls net method url kwargs v w Hv Hacc)|]. split.
  - intros ->. reflexivity.
  - intros Hng. split; [destruct v; try congruence; reflexivity|].
    rewrite (request_outcome net method url kwargs v w Hv Hacc).
    rewrite (request_outcome net method url (delete "params" kwargs) v w Hv
               (accepted_delete kwargs "params" Hacc)).
    rewrite passthrough_delete by (simpl; tauto).
    unfold keyword.
    rewrite (lookup_delete_ne kwargs "params" "data"),
      (lookup_delete_ne kwargs "params" "json") by discriminate.
    destruct v; try congruence; reflexivity.
Qed.

(** X10.  The [data] argument reaches the transport with POST, PUT and
    PATCH; with GET and DELETE the call has no [data] and the request runs
    exactly as if [data] had not been given. *)
Theorem data_forwarded_by_body_verbs (method url : string)
    (kwargs : gmap string PyVal) (v : Verb) (w : World) :
  names_verb method v -> accepted kwargs ->
  exists c, issued w (snd (request net method url kwargs w)) [c] /\
    (v = POST \/ v = PUT \/ v = PATCH -> call_data c = Some (keyword "data" kwargs)) /\
    (v = GET \/ v = DELETE ->
       call_data c = None /\
       request net method url kwargs w = request net method url (delete "data" kwargs) w).
Proof.
  intros Hv Hacc. eexists.
  split; [apply (request_calls net method url kwargs v w Hv Hacc)|]. split.
  - intros [->|[->| ->]]; reflexivity.
  - intros Hgd. split; [destruct Hgd as [->| ->]; reflexivity|].
    rewrite (request_outcome net method url kwargs v w Hv Hacc).
    rewrite (request_outcome net method url (delete "data" kwargs) v w Hv
               (accepted_delete kwargs "data" Hacc)).
    rewrite passthrough_delete by (simpl; tauto).
    unfold keyword.
    rewrite (lookup_delete_ne kwargs "data" "params"),
      (lookup_delete_ne kwargs "data" "json") by discriminate.
    destruct Hgd as [->| ->]; reflexivity.
Qed.

Lemma open_sessions_built (w : World) (n : nat) :
  open_sessions (with_sessions w n) = open_sessions w + n.
Proof.
  unfold open_sessions, with_sessions. cbn [sessions].
  rewrite List.filter_app, length_app. f_equal.
  induction n as [|n IH]; simpl; [reflexivity|]. rewrite IH. reflexivity.
Qed.

Lemma open_sessions_closed_one (w : World) (v : Verb) :
  length (List.filter (fun s => negb (closed s))
            (alter close_session (length (sessions w) + verb_index v)
               (sessions (with_sessions w 5)))) = open_sessions w + 4.
Proof.
  unfold open_sessions, with_sessions. cbn [sessions].
  rewrite alter_app_r, List.filter_app, length_app. f_equal.
  destruct v; reflexivity.
Qed.

(** X11.  Every request for a supported verb leaves sessions open: the
    number of open sessions grows by four when the sender returns and by
    five when it raises. *)
Theorem request_leaves_sessions_open (method url : string)
    (kwargs : gmap string PyVal) (v : Verb) (w : World) :
  names_verb method v -> accepted kwargs ->
  let out := request net method url kwargs w in
  open_sessions (snd out) =
  open_sessions w + match fst out with Return _ => 4 | Raise _ => 5 end.
Proof.
  intros Hv Hacc out. subst out.
  rewrite (request_outcome net method url kwargs v w Hv Hacc). cbv zeta.
  destruct (send net _ _) as [r|e]; [destruct (read_response net v r)|]; cbn [fst snd].
  - apply open_sessions_closed_one.
  - apply (open_sessions_built w 5).
  - apply (open_sessions_built w 5).
Qed.

(** X12.  With options that do not repeat [session], [headers] or
    [timeout], a method that is none of the five verbs is refused only after
    the whole dict was built: five sessions were constructed for it, all are
    left open, and no call was made. *)
Theorem unsupported_method_leaves_five_sessions (method url : string)
    (kwargs : gmap string PyVal) (w : World) :
  unsupported method -> accepted kwargs ->
  let w' := snd (request net method url kwargs w) in
  constructed w w' 5 /\ open_sessions w' = open_sessions w + 5 /\ issued w w' [].
Proof.
  intros Hu Hacc w'. subst w'. unfold request, call_async.
  rewrite (accepted_request_call kwargs Hacc).
  unfold asyncio_run, _request, mbind, M_bind, mret, M_ret. cbv beta iota zeta.
  rewrite dispatch_table_run by (intros k Hk; apply passthrough_lookup; assumption).
  rewrite table_of_lookup_None by (apply unsupported_key; exact Hu).
  cbn [gather raise snd]. split; [apply (built_length w 5)|].
  split; [apply (open_sessions_built w 5)|].
  unfold issued. rewrite app_nil_r. reflexivity.
Qed.

Lemma own_session_step (a : ApiCall) (w : World) :
  own_session w -> own_session (run_call net a w).
Proof.
  intros [Hnd Hall]. destruct a as [value|method url kwargs]; [split; assumption|].
  cbn [run_call].
  destruct (request_shape method url kwargs w) as (_ & (n & _ & Hlen) & _ & Hcalls).
  unfold own_session. rewrite Hlen.
  destruct Hcalls as [->|(c & -> & _ & Hc)].
  - split; [exact Hnd|]. eapply Forall_impl; [exact Hall|]. simpl. intros; lia.
  - rewrite Hlen in Hc. rewrite map_app. split.
    + apply NoDup_app. split; [exact Hnd|]. split; [|repeat constructor; apply not_elem_of_nil].
      intros x Hx Hx'. simpl in Hx'. apply list_elem_of_singleton in Hx'. subst x.
      apply list_elem_of_In, in_map_iff in Hx. destruct Hx as (c' & Hc' & Hin).
      rewrite Forall_forall in Hall. apply list_elem_of_In in Hin.
      specialize (Hall c' Hin). simpl in Hall. lia.
    + apply Forall_app. split.
      * eapply Forall_impl; [exact Hall|]. simpl. intros; lia.
      * repeat constructor. lia.
Qed.

(** X13.  Through any sequence of setter calls and requests, failed ones
    included, every call in the log went out on a session of its own: no
    session ever carries two calls. *)
Theorem calls_never_share_a_session (l : list ApiCall) (w : World) :
  own_session w -> own_session (run_calls net l w).
Proof.
  revert w. induction l as [|a l IH]; intros w Hw; [exact Hw|].
  apply IH, own_session_step, Hw.
Qed.

(** X14.  Through any sequence of setter calls and requests, the default
    headers and the [session_timeout] attribute stay what they were, and the
    stored request timeout is the one of the last setter call (the original
    one if there was none): no request ever changes it. *)
Theorem configuration_through_calls (l : list ApiCall) (w : World) :
  let w' := run_calls net l w in
  header (self w') = header (self w) /\
  session_timeout (self w') = session_timeout (self w) /\
  request_timeout (self w') = last_timeout l (request_timeout (self w)).
Proof.
  revert w. induction l as [|a l IH]; intros w; [repeat split|].
  cbn [run_calls last_timeout fold_left]. specialize (IH (run_call net a w)).
  unfold run_calls in IH. cbv zeta in IH. destruct IH as (Hh & Hs & Ht).
  cbv zeta. rewrite Hh, Hs, Ht. destruct a as [value|method url kwargs].
  - repeat split.
  - cbn [run_call].
    destruct (request_shape method url kwargs w) as (-> & _). repeat split.
Qed.

(** X15.  Nothing is retried and nothing is pooled: a sequence of [n] API
    calls adds at most [n] calls to the log and at most [5 * n] sessions,
    drops no call from the log and no session from the state. *)
Theorem calls_and_sessions_bounded (l : list ApiCall) (w : World) :
  let w' := run_calls net l w in
  length (calls w) <= length (calls w') <= length (calls w) + length l /\
  length (sessions w) <= length (sessions w') <= length (sessions w) + 5 * length l.
Proof.
  revert w. induction l as [|a l IH]; intros w; [simpl; lia|].
  cbn [run_calls fold_left]. specialize (IH (run_call net a w)).
  unfold run_calls in IH. cbv zeta in IH |- *.
  assert (length (calls w) <= length (calls (run_call net a w)) <= length (calls w) + 1 /\
          length (sessions w) <= length (sessions (run_call net a w))
            <= length (sessions w) + 5) as Hstep.
  { destruct a as [value|method url kwargs]; [simpl; lia|]. cbn [run_call].
    destruct (request_shape method url kwargs w) as (_ & (n & Hn & ->) & _ & Hcalls).
    destruct Hcalls as [->|(c & -> & _)]; rewrite ?length_app; simpl; lia. }
  simpl length. lia.
Qed.

End Extras.

(** ** The further properties on concrete runs *)

Lemma transport_failure_propagates_witness :
  names_verb "Put" PUT /\ accepted put_options /\
  fst (request unreachable "Put" example_url put_options fresh) = Raise connection_refused /\
  (forall v', is_open (snd (request unreachable "Put" example_url put_options fresh))
                (length (sessions fresh) + verb_index v')).
Proof.
  split; [reflexivity|]. split; [accepted_by_computation|].
  destruct (transport_failure_propagates unreachable "Put" example_url put_options PUT fresh
              connection_refused) as (H1 & _ & H2);
    [reflexivity | accepted_by_computation | reflexivity |].
  split; [exact H1 | exact H2].
Defined.

Lemma json_verbs_return_singleton_witness :
  names_verb "patch" PATCH /\ PATCH <> DELETE /\ accepted ∅ /\
  fst (request (server ok_a1) "patch" example_url ∅ fresh) = Return (PyList [json_a1]) /\
  is_closed (snd (request (server ok_a1) "patch" example_url ∅ fresh))
    (length (sessions fresh) + verb_index PATCH).
Proof.
  split; [reflexivity|]. split; [discriminate|]. split; [accepted_by_computation|].
  apply (json_verbs_return_singleton (server ok_a1) "patch" example_url ∅ PATCH fresh
           ok_a1 json_a1);
    [reflexivity | discriminate | accepted_by_computation | reflexivity | reflexivity].
Defined.

Lemma delete_never_returns_witness :
  names_verb "DELETE" DELETE /\
  (exists e, fst (request (server ok_a1) "DELETE" example_url
                    (<["timeout" := PyInt 3]> ∅) fresh) = Raise e) /\
  (forall i,
     length (sessions fresh) <= i
       < length (sessions (snd (request (server ok_a1) "DELETE" example_url ∅ fresh))) ->
     is_open (snd (request (server ok_a1) "DELETE" example_url ∅ fresh)) i).
Proof.
  split; [reflexivity|]. split.
  - destruct (delete_never_returns (server ok_a1) "DELETE" example_url
                (<["timeout" := PyInt 3]> ∅) fresh) as ((e & He & _) & _);
      [reflexivity|]. exists e. exact He.
  - destruct (delete_never_returns (server ok_a1) "DELETE" example_url ∅ fresh)
      as (_ & H & _); [reflexivity|]. exact H.
Defined.

Lemma refused_option_raises_witness :
  In "timeout" refused_options /\
  is_Some ((<["timeout" := PyInt 3]> ∅ : gmap string PyVal) !! "timeout") /\
  issued fresh
    (snd (request (server ok_a1) "GET" example_url (<["timeout" := PyInt 3]> ∅) fresh)) [] /\
  constructed fresh
    (snd (request (server ok_a1) "GET" example_url (<["timeout" := PyInt 3]> ∅) fresh)) 1.
Proof.
  split; [simpl; tauto|]. split; [eexists; reflexivity|].
  destruct (refused_option_raises (server ok_a1) "GET" example_url
              (<["timeout" := PyInt 3]> ∅) fresh "timeout") as (_ & H1 & H2 & _);
    [ intros k' Hk'; simpl in Hk'; destruct Hk' as [<-|[<-|[<-|[]]]]; reflexivity
    | simpl; tauto | eexists; reflexivity |].
  split; [exact H1 | exact H2].
Defined.

Lemma method_case_is_irrelevant_witness :
  caseless_eq "pOsT" "POST" = true /\
  request (server ok_a1) "pOsT" example_url ∅ fresh =
  request (server ok_a1) "POST" example_url ∅ fresh.
Proof.
  split; [reflexivity|].
  apply (method_case_is_irrelevant (server ok_a1) "pOsT" "POST" example_url ∅ fresh).
  reflexivity.
Defined.

Lemma built_sessions_share_configuration_witness :
  names_verb "get" GET /\ accepted ∅ /\
  forall v', exists s,
    sessions (snd (request (server ok_a1) "get" example_url ∅ fresh))
      !! (length (sessions fresh) + verb_index v') = Some s /\
    connector_limit s = 30%Z /\ timeout_of_session s = request_timeout (self fresh).
Proof.
  split; [reflexivity|]. split; [accepted_by_computation|].
  apply (built_sessions_share_configuration (server ok_a1) "get" example_url ∅ GET fresh);
    [reflexivity | accepted_by_computation].
Defined.

Lemma options_forwarded_unchanged_witness :
  names_verb "PUT" PUT /\ accepted put_options /\
  exists c, issued fresh (snd (request (server ok_a1) "PUT" example_url put_options fresh)) [c] /\
            call_headers c = header (self fresh) /\
            call_kwargs c !! "allow_redirects" = Some (PyBool true).
Proof.
  split; [reflexivity|]. split; [accepted_by_computation|].
  destruct (options_forwarded_unchanged (server ok_a1) "PUT" example_url put_options PUT fresh)
    as (c & Hc & Hh & _ & Hk & _);
    [reflexivity | accepted_by_computation |].
  exists c. split; [exact Hc|]. split; [exact Hh|].
  rewrite Hk by discriminate. reflexivity.
Defined.

Lemma params_forwarded_only_by_get_witness :
  names_verb "post" POST /\ accepted (<["params" := PyStr "q=1"]> ∅) /\
  request (server ok_a1) "post" example_url (<["params" := PyStr "q=1"]> ∅) fresh =
  request (server ok_a1) "post" example_url (delete "params" (<["params" := PyStr "q=1"]> ∅)) fresh.
Proof.
  split; [reflexivity|]. split; [accepted_by_computation|].
  destruct (params_forwarded_only_by_get (server ok_a1) "post" example_url
              (<["params" := PyStr "q=1"]> ∅) POST fresh) as (c & _ & _ & H);
    [reflexivity | accepted_by_computation |].
  destruct H as [_ H]; [discriminate|]. exact H.
Defined.

Lemma data_forwarded_by_body_verbs_witness :
  names_verb "get" GET /\ accepted put_options /\
  request (server ok_a1) "get" example_url put_options fresh =
  request (server ok_a1) "get" example_url (delete "data" put_options) fresh.
Proof.
  split; [reflexivity|]. split; [accepted_by_computation|].
  destruct (data_forwarded_by_body_verbs (server ok_a1) "get" example_url put_options GET fresh)
    as (c & _ & _ & H);
    [reflexivity | accepted_by_computation |].
  destruct H as [_ H]; [left; reflexivity|]. exact H.
Defined.

Lemma request_leaves_sessions_open_witness :
  names_verb "GET" GET /\ accepted ∅ /\
  open_sessions (snd (request (server ok_a1) "GET" example_url ∅ fresh)) = 4.
Proof.
  split; [reflexivity|]. split; [accepted_by_computation|].
  exact (request_leaves_sessions_open (server ok_a1) "GET" example_url ∅ GET fresh
           eq_refl (acceptedb_accepted ∅ eq_refl)).
Defined.

Lemma unsupported_method_leaves_five_sessions_witness :
  unsupported "OPTIONS" /\ accepted ∅ /\
  constructed fresh (snd (request (server ok_a1) "OPTIONS" example_url ∅ fresh)) 5 /\
  open_sessions (snd (request (server ok_a1) "OPTIONS" example_url ∅ fresh)) =
  open_sessions fresh + 5 /\
  issued fresh (snd (request (server ok_a1) "OPTIONS" example_url ∅ fresh)) [].
Proof.
  split; [intros v; destruct v; reflexivity|]. split; [accepted_by_computation|].
  apply (unsupported_method_leaves_five_sessions (server ok_a1) "OPTIONS" example_url ∅ fresh);
    [intros v; destruct v; reflexivity | accepted_by_computation].
Defined.

Lemma calls_never_share_a_session_witness :
  own_session fresh /\ own_session (run_calls (server ok_a1) session_of_calls fresh).
Proof.
  assert (own_session fresh) as H by (split; constructor).
  split; [exact H|].
  apply (calls_never_share_a_session (server ok_a1) session_of_calls fresh). exact H.
Defined.

(** X16.  Every read of the [_client_session] property builds a new
    session, and a session keeps the timeout it was built with: of two reads
    with a setter call in between, the first session has the old timeout and
    the second the new one; both are open, and no call is made. *)
Theorem session_keeps_its_timeout (value : PyVal) (w : World) :
  let w1 := snd (_client_session w) in
  let w2 := snd (_time_out_setter value w1) in
  let w3 := snd (_client_session w2) in
  fst (_client_session w) = Return (length (sessions w)) /\
  fst (_client_session w2) = Return (S (length (sessions w))) /\
  sessions w3 !! length (sessions w) =
    Some (mkClientSession 30 (request_timeout (self w)) false) /\
  sessions w3 !! S (length (sessions w)) =
    Some (mkClientSession 30 (mkClientTimeout value) false) /\
  (forall i, i < length (sessions w) -> sessions w3 !! i = sessions w !! i) /\
  calls w3 = calls w.
Proof.
  unfold _client_session, _time_out, _time_out_setter, ClientSession_new, mbind, M_bind.
  cbn [fst snd self sessions calls request_timeout].
  rewrite length_app. cbn [length]. rewrite Nat.add_1_r.
  split; [reflexivity|]. split; [reflexivity|]. split; [|split; [|split; [|reflexivity]]].
  - rewrite lookup_app_l by (rewrite length_app; simpl; lia).
    rewrite lookup_app_r by lia. rewrite Nat.sub_diag. reflexivity.
  - rewrite lookup_app_r by (rewrite length_app; simpl; lia).
    rewrite length_app. cbn [length]. rewrite Nat.add_1_r, Nat.sub_diag. reflexivity.
  - intros i Hi. rewrite lookup_app_l by (rewrite length_app; simpl; lia).
    apply lookup_app_l. exact Hi.
Qed.
